(** * analyze_survey.py: a shallow embedding and its checked properties

    The script is one procedure, [main], that loads a survey export with
    pandas, strips two metadata rows, aggregates two tables, draws two
    charts and writes a text summary.  The embedding follows the script
    statement by statement:

    - Python values that the script handles (exceptions, the console, the
      file system) are modelled in the first part;
    - the pandas operations the script calls are modelled in [Module pd],
      on row-oriented frames whose cells are missing, text or numbers;
    - the script itself is the section [analyze_survey]; its local
      variables ([df_clean], [task1_df], [task1_means], [task2_df],
      [task2_crosstab], [final_order], ...) keep their names.

    Numbers are exact rationals ([Qc], canonical fractions), so a mean or
    a percentage is the rational it denotes; binary floating point
    rounding is outside the model.  The text parsers and printers of the
    libraries ([pd.read_csv], [pd.to_numeric] on text, [to_csv], the chart
    renderers) are parameters of the section. *)

From Stdlib Require Import QArith Qcanon.
From stdpp Require Import base decidable option list strings pretty gmap sorting.

Local Open Scope string_scope.
Local Open Scope list_scope.

(** ** Python: exceptions and results *)

Inductive exn :=
  | FileNotFoundError
  | KeyError (labels : list string)
  | SystemExit (code : Z)
  | LibraryError (what : string).

Inductive result (A : Type) :=
  | Ok (a : A)
  | Raise (e : exn).
Arguments Ok {A} a.
Arguments Raise {A} e.

#[global] Instance result_ret : MRet result := @Ok.
#[global] Instance result_bind : MBind result := λ A B f r,
  match r with Ok a => f a | Raise e => Raise e end.

(** A Python [dict] literal read in insertion order. *)
Abbreviation dict := (list (string * string)).

Fixpoint dict_get (k : string) (d : dict) : option string :=
  match d with
  | [] => None
  | (k', v) :: d' => if decide (k = k') then Some v else dict_get k d'
  end.

Definition keys (d : dict) : list string := d.*1.
Definition dict_values (d : dict) : list string := d.*2.

(** ** The process: console and files

    What a run can observe and change: the files by name, and the lines
    printed so far. *)

Record World := mkWorld {
  files : gmap string string;
  stdout : list string
}.

Definition M (A : Type) : Type := World → result A * World.

#[global] Instance M_ret : MRet M := λ A a w, (Ok a, w).
#[global] Instance M_bind : MBind M := λ A B f m w,
  match m w with
  | (Ok a, w') => f a w'
  | (Raise e, w') => (Raise e, w')
  end.

Definition lift {A} (r : result A) : M A := λ w, (r, w).

(** [print(line)] *)
Definition print (line : string) : M unit := λ w,
  (Ok (), {| files := files w; stdout := stdout w ++ [line] |}).

(** [sys.exit(code)] raises [SystemExit]. *)
Definition sys_exit {A} (code : Z) : M A := lift (Raise (SystemExit code)).

(** [try: body / except FileNotFoundError: handler] *)
Definition try_except_FileNotFoundError {A} (body handler : M A) : M A := λ w,
  match body w with
  | (Raise FileNotFoundError, w') => handler w'
  | outcome => outcome
  end.

(** Reading a whole file; a name that is not there raises. *)
Definition read_text (path : string) : M string := λ w,
  match files w !! path with
  | Some content => (Ok content, w)
  | None => (Raise FileNotFoundError, w)
  end.

(** Creating or replacing a file with the given content. *)
Definition write_file (path content : string) : M unit := λ w,
  (Ok (), {| files := <[path := content]> (files w); stdout := stdout w |}).

(** [open(path, 'w')]: the file is created, or emptied when it exists. *)
Definition open_w (path : string) : M unit := write_file path "".

(** [f.write(s)] on the handle of [path]: the text goes after what the
    handle has written so far. *)
Definition fwrite (path s : string) : M unit := λ w,
  (Ok (), {| files := alter (λ sofar, sofar +:+ s) path (files w);
             stdout := stdout w |}).

(** The status the interpreter exits with. *)
Definition exit_status {A} (r : result A) : Z :=
  match r with
  | Ok _ => 0
  | Raise (SystemExit code) => code
  | Raise _ => 1
  end.

(** A [for] loop whose body may raise, threading the value it updates. *)
Fixpoint for_in {A B} (l : list A) (body : A → B → result B) (acc : B) : result B :=
  match l with
  | [] => Ok acc
  | x :: l' => body x acc ≫= for_in l' body
  end.

Definition newline : string := String (Ascii.ascii_of_nat 10) EmptyString.

(** ** Exact numbers *)

Definition Qc_of_nat (n : nat) : Qc := Q2Qc (inject_Z (Z.of_nat n)).

Definition Qc_sum (l : list Qc) : Qc := foldr Qcplus (Q2Qc 0) l.

(** ** pandas *)

Module pd.

(** A cell of a frame: [NaN] is the missing marker, [Str] a text value of
    an object column, [Num] a number. *)
Inductive cell :=
  | NaN
  | Str (s : string)
  | Num (q : Qc).

#[global] Instance cell_eq_dec : EqDecision cell.
Proof. solve_decision. Defined.

Definition notna (c : cell) : Prop := c ≠ NaN.

#[global] Instance notna_dec c : Decision (notna c).
Proof. unfold notna. apply _. Defined.

(** Order used when group keys are sorted: numbers by value, text by
    code units, numbers before text, the missing marker last. *)
Definition cell_leb (a b : cell) : bool :=
  match a, b with
  | Num x, Num y => Qle_bool x y
  | Num _, _ => true
  | Str _, Num _ => false
  | Str s, Str t => String.leb s t
  | Str _, NaN => true
  | NaN, NaN => true
  | NaN, _ => false
  end.

Definition cell_le (a b : cell) : Prop := cell_leb a b = true.

#[global] Instance cell_le_dec a b : Decision (cell_le a b).
Proof. unfold cell_le. apply _. Defined.

(** [Series.unique()] followed by a sort: the labels of a grouped axis. *)
Definition sorted_unique (l : list cell) : list cell :=
  merge_sort cell_le (remove_dups l).

(** A column of a frame taken out as a series: its name and its cells in
    row order. *)
Record Series := mkSeries { sname : string; scells : list cell }.

(** A frame as read from a file or projected from one: column names, and
    the rows with their index label. *)
Record DataFrame := mkDataFrame {
  columns : list string;
  rows : list (nat * list cell)
}.

Definition index (df : DataFrame) : list nat := (rows df).*1.
Definition values (df : DataFrame) : list (list cell) := (rows df).*2.

(** An aggregated frame: both axes carry labels that are data values. *)
Record Table := mkTable {
  tindex_name : string;
  tindex : list cell;
  tcolumns : list cell;
  tvalues : list (list cell)
}.

(** Position of a label on an axis ([Index.get_loc]); the field names
    that [read_csv] gives are distinct, the first position is taken. *)
Fixpoint get_loc {A} `{EqDecision A} (c : A) (cols : list A) : option nat :=
  match cols with
  | [] => None
  | c' :: cols' => if decide (c = c') then Some 0%nat else S <$> get_loc c cols'
  end.

Definition get_locs (names cols : list string) : option (list nat) :=
  mapM (λ n, get_loc n cols) names.

Definition missing_labels (names cols : list string) : list string :=
  filter (λ n, n ∉ cols) names.

(** The cell of a row at a position; a row shorter than the header reads
    as missing there, as [read_csv] pads it. *)
Definition cell_at (p : nat) (r : list cell) : cell := default NaN (r !! p).

Definition take_locs (locs : list nat) (r : list cell) : list cell :=
  (λ p, cell_at p r) <$> locs.

(** [df.iloc[n:]] *)
Definition iloc_from (n : nat) (df : DataFrame) : DataFrame :=
  {| columns := columns df; rows := drop n (rows df) |}.

(** [df.reset_index(drop=True)] *)
Definition reset_index (df : DataFrame) : DataFrame :=
  {| columns := columns df;
     rows := zip (seq 0 (length (rows df))) (values df) |}.

(** [df[[c1, ..., cn]]] *)
Definition getitem_list (names : list string) (df : DataFrame) : result DataFrame :=
  match get_locs names (columns df) with
  | Some locs =>
      Ok {| columns := names;
            rows := (λ r, (r.1, take_locs locs r.2)) <$> rows df |}
  | None => Raise (KeyError (missing_labels names (columns df)))
  end.

(** [df.rename(columns=mapper)] *)
Definition rename (mapper : dict) (df : DataFrame) : DataFrame :=
  {| columns := (λ c, default c (dict_get c mapper)) <$> columns df;
     rows := rows df |}.

(** [df[col]] *)
Definition getitem (col : string) (df : DataFrame) : result Series :=
  match get_loc col (columns df) with
  | Some p => Ok {| sname := col; scells := (λ r, cell_at p r.2) <$> rows df |}
  | None => Raise (KeyError [col])
  end.

(** Writing a cell of a row, the row padded with missing cells up to the
    position when it is shorter. *)
Definition set_cell (p : nat) (v : cell) (r : list cell) : list cell :=
  <[p:=v]> (r ++ replicate (S p - length r) NaN).

(** [df[col] = s], for a series [s] over the index of [df]: an existing
    column is replaced, a new one is added at the end. *)
Definition setitem (col : string) (s : Series) (df : DataFrame) : DataFrame :=
  match get_loc col (columns df) with
  | Some p =>
      {| columns := columns df;
         rows := zip_with (λ r v, (r.1, set_cell p v r.2)) (rows df) (scells s) |}
  | None =>
      {| columns := columns df ++ [col];
         rows := zip_with (λ r v, (r.1, r.2 ++ [v])) (rows df) (scells s) |}
  end.

(** [df.dropna(subset=names)] *)
Definition dropna_subset (names : list string) (df : DataFrame) : result DataFrame :=
  match get_locs names (columns df) with
  | Some locs =>
      Ok {| columns := columns df;
            rows := filter (λ r, Forall notna (take_locs locs r.2)) (rows df) |}
  | None => Raise (KeyError (missing_labels names (columns df)))
  end.

(** [df.dropna()] *)
Definition dropna (df : DataFrame) : DataFrame :=
  {| columns := columns df;
     rows := filter (λ r, Forall notna r.2) (rows df) |}.

(** [s.isin(vals)] *)
Definition isin (vals : list cell) (s : Series) : list bool :=
  (λ c, bool_decide (c ∈ vals)) <$> scells s.

(** [df[mask]] for a boolean mask over the rows of [df]. *)
Definition getitem_mask (mask : list bool) (df : DataFrame) : DataFrame :=
  {| columns := columns df;
     rows := (filter (λ rb, rb.2 = true) (zip (rows df) mask)).*1 |}.

(** The numbers of a series, missing cells skipped. *)
Definition numbers (l : list cell) : list Qc :=
  omap (λ c, match c with Num q => Some q | _ => None end) l.

(** [Series.mean()] of a numeric series: the sum of the numbers present
    over how many there are, missing when there is none. *)
Definition mean (l : list cell) : cell :=
  match numbers l with
  | [] => NaN
  | xs => Num (Qc_sum xs / Qc_of_nat (length xs))
  end.

(** [df.groupby(key)[cols].mean()] *)
Definition groupby_mean (key : string) (cols : list string) (df : DataFrame)
  : result Table :=
  match get_loc key (columns df) with
  | None => Raise (KeyError [key])
  | Some k =>
    match get_locs cols (columns df) with
    | None => Raise (KeyError (missing_labels cols (columns df)))
    | Some locs =>
      let groups := sorted_unique (filter notna ((λ r, cell_at k r.2) <$> rows df)) in
      Ok {| tindex_name := key;
            tindex := groups;
            tcolumns := Str <$> cols;
            tvalues :=
              (λ g, (λ p, mean ((λ r, cell_at p r.2) <$>
                                filter (λ r, cell_at k r.2 = g) (rows df))) <$> locs)
              <$> groups |}
    end
  end.

(** [df.melt(id_vars=id, value_vars=vars, var_name=.., value_name=..)] *)
Definition melt (id : string) (vars : list string) (var_name value_name : string)
    (df : DataFrame) : result DataFrame :=
  match get_loc id (columns df) with
  | None => Raise (KeyError [id])
  | Some k =>
    match get_locs vars (columns df) with
    | None => Raise (KeyError (missing_labels vars (columns df)))
    | Some locs =>
      let long :=
        mjoin ((λ vp : string * nat,
                  (λ r : nat * list cell,
                     [cell_at k r.2; Str vp.1; cell_at vp.2 r.2]) <$> rows df)
               <$> zip vars locs) in
      Ok {| columns := [id; var_name; value_name];
            rows := zip (seq 0 (length long)) long |}
    end
  end.

(** The contingency counts of [pd.crosstab(a, b)]: pairs with a missing
    side are left out, both axes are the sorted distinct values. *)
Definition observations (a b : Series) : list (cell * cell) :=
  filter (λ p, notna p.1 ∧ notna p.2) (zip (scells a) (scells b)).

Definition count (x : cell * cell) (obs : list (cell * cell)) : nat :=
  length (filter (λ p, p = x) obs).

Definition crosstab_counts (a b : Series) : Table :=
  let obs := observations a b in
  let rkeys := sorted_unique obs.*1 in
  let ckeys := sorted_unique obs.*2 in
  {| tindex_name := sname a;
     tindex := rkeys;
     tcolumns := ckeys;
     tvalues := (λ r, (λ c, Num (Qc_of_nat (count (r, c) obs))) <$> ckeys) <$> rkeys |}.

(** [normalize='index']: every row divided by its own sum. *)
Definition div_cell (d : Qc) (c : cell) : cell :=
  match c with Num q => Num (q / d) | _ => c end.

Definition normalize_index (t : Table) : Table :=
  {| tindex_name := tindex_name t;
     tindex := tindex t;
     tcolumns := tcolumns t;
     tvalues := (λ row : list cell, div_cell (Qc_sum (numbers row)) <$> row) <$> tvalues t |}.

(** [t * k] *)
Definition mul_cell (k : Qc) (c : cell) : cell :=
  match c with Num q => Num (q * k) | _ => c end.

Definition mul_scalar (k : Qc) (t : Table) : Table :=
  {| tindex_name := tindex_name t;
     tindex := tindex t;
     tcolumns := tcolumns t;
     tvalues := (λ row : list cell, mul_cell k <$> row) <$> tvalues t |}.

(** [pd.crosstab(a, b, normalize='index')] *)
Definition crosstab (a b : Series) : Table := normalize_index (crosstab_counts a b).

(** [t[labels]]: the columns of a table in the order asked; a label
    that is no column raises. *)
Definition table_getitem_list (labels : list cell) (t : Table) : result Table :=
  match mapM (λ c, get_loc c (tcolumns t)) labels with
  | Some locs =>
      Ok {| tindex_name := tindex_name t;
            tindex := tindex t;
            tcolumns := labels;
            tvalues := take_locs locs <$> tvalues t |}
  | None => Raise (KeyError [])
  end.

(** [pd.read_csv(path, header=0)]: the parser of the file's text is a
    parameter; it gives the field names and the data rows, which get the
    index 0, 1, 2, ... *)
Definition frame_of (parsed : list string * list (list cell)) : DataFrame :=
  {| columns := parsed.1;
     rows := zip (seq 0 (length parsed.2)) parsed.2 |}.

Definition read_csv (parse_csv : string → result (list string * list (list cell)))
    (path : string) : M DataFrame :=
  text ← read_text path;
  parsed ← lift (parse_csv text);
  mret (frame_of parsed).

(** [pd.to_numeric(s, errors='coerce')]: text that does not read as a
    number becomes missing; how text reads as a number is a parameter. *)
Definition to_numeric_cell (parse_number : string → option Qc) (c : cell) : cell :=
  match c with
  | NaN => NaN
  | Num q => Num q
  | Str s => match parse_number s with Some q => Num q | None => NaN end
  end.

Definition to_numeric (parse_number : string → option Qc) (s : Series) : Series :=
  {| sname := sname s; scells := to_numeric_cell parse_number <$> scells s |}.

End pd.

(** ** The script *)

Section analyze_survey.

(** What the libraries do with text and pictures: the parser of
    [pd.read_csv], the reading of text as a number in [pd.to_numeric], the
    two charts as the bytes [savefig] writes (or the exception the
    plotting raises), and [DataFrame.to_csv]. *)
Variable parse_csv : string → result (list string * list (list pd.cell)).
Variable parse_number : string → option Qc.
Variable barplot : pd.DataFrame → result string.
Variable barh_stacked : pd.Table → result string.
Variable to_csv : pd.Table → string.

Definition input_csv : string :=
  "Alternative CPA Pathways Survey_December 31, 2025_09.45.csv".

Definition col_employment : string := "Q47".

Definition col_rankings : dict :=
  [ ("Q24_1", "CPA Exam Preparation");
    ("Q24_2", "Networking Opportunities");
    ("Q24_3", "Interaction with Experienced Faculty");
    ("Q24_4", "Technical Accounting Skills");
    ("Q24_5", "Soft Skill Development");
    ("Q24_6", "Internship and Recruitment Opportunities") ].

Definition ranking_cols : list string := dict_values col_rankings.

Definition col_program : string := "Q58".
Definition col_earnings : string := "Q44".

Definition likert_order : list string :=
  [ "Definitely yes";
    "Probably yes";
    "Might or might not";
    "Probably not";
    "Definitely not" ].

(** Line 21: [df.iloc[2:].reset_index(drop=True)]. *)
Definition df_clean (df : pd.DataFrame) : pd.DataFrame :=
  pd.reset_index (pd.iloc_from 2 df).

(** Lines 41-44: the only column whose presence is looked at. *)
Definition warning : string :=
  "Warning: " +:+ col_employment +:+
  " not found. Searching for 'Do you currently work in a CPA firm?'".

(** Lines 47-59: subset, rename, coerce the six ranking columns, drop the
    rows with a missing value. *)
Definition task1_df (df_clean : pd.DataFrame) : result pd.DataFrame :=
  task1_df ← pd.getitem_list (col_employment :: keys col_rankings) df_clean;
  let task1_df := pd.rename col_rankings task1_df in
  let task1_df := pd.rename [(col_employment, "Work in CPA Firm")] task1_df in
  task1_df ←
    for_in ranking_cols
      (λ col task1_df,
         s ← pd.getitem col task1_df;
         mret (pd.setitem col (pd.to_numeric parse_number s) task1_df))
      task1_df;
  pd.dropna_subset ("Work in CPA Firm" :: ranking_cols) task1_df.

(** Line 62. *)
Definition task1_means (task1_df : pd.DataFrame) : result pd.Table :=
  pd.groupby_mean "Work in CPA Firm" ranking_cols task1_df.

(** Line 67. *)
Definition task1_melted (task1_df : pd.DataFrame) : result pd.DataFrame :=
  pd.melt "Work in CPA Firm" ranking_cols "Benefit" "Rank" task1_df.

(** Lines 93-100: subset, rename, keep the two program types, drop the
    rows with a missing value.  (Line 112 computes [present_values], which
    nothing reads.) *)
Definition task2_df (df_clean : pd.DataFrame) : result pd.DataFrame :=
  task2_df ← pd.getitem_list [col_program; col_earnings] df_clean;
  let task2_df :=
    pd.rename [(col_program, "Program Type");
               (col_earnings, "Lifetime Earnings Belief")] task2_df in
  program ← pd.getitem "Program Type" task2_df;
  let task2_df :=
    pd.getitem_mask (pd.isin [pd.Str "MAcc"; pd.Str "MBA"] program) task2_df in
  mret (pd.dropna task2_df).

(** Line 116. *)
Definition task2_crosstab (task2_df : pd.DataFrame) : result pd.Table :=
  program ← pd.getitem "Program Type" task2_df;
  belief ← pd.getitem "Lifetime Earnings Belief" task2_df;
  mret (pd.mul_scalar (Qc_of_nat 100) (pd.crosstab program belief)).

(** Lines 119-122, over the column labels of the cross-tabulation. *)
Definition existing_order (crosstab_columns : list pd.cell) : list string :=
  filter (λ val, pd.Str val ∈ crosstab_columns) likert_order.

Definition others (crosstab_columns : list pd.cell) : list pd.cell :=
  filter (λ c, c ∉ pd.Str <$> existing_order crosstab_columns) crosstab_columns.

Definition final_order (crosstab_columns : list pd.cell) : list pd.cell :=
  (pd.Str <$> existing_order crosstab_columns) ++ others crosstab_columns.

(** Line 123. *)
Definition task2_reordered (task2_crosstab : pd.Table) : result pd.Table :=
  pd.table_getitem_list (final_order (pd.tcolumns task2_crosstab)) task2_crosstab.

Definition task1_header : string :=
  "Task 1: Mean Ranks by Employment Status (Lower = Higher Priority)" +:+ newline.

Definition task2_header : string :=
  "Task 2: Percentage Belief in Higher Lifetime Earnings by Program Type" +:+ newline.

(** Lines 153-158: the body of the [with open(..., 'w') as f] block. *)
Definition write_summary (task1_means task2_crosstab : pd.Table) : M unit :=
  open_w "results_summary.csv";;
  fwrite "results_summary.csv" task1_header;;
  fwrite "results_summary.csv" (to_csv task1_means);;
  fwrite "results_summary.csv" newline;;
  fwrite "results_summary.csv" task2_header;;
  fwrite "results_summary.csv" (to_csv task2_crosstab).

(** Lines 7-160.  The calls that draw and save a chart are one step each:
    the renderer on the data it is given, then the file it saves. *)
Definition main : M unit :=
  df ← try_except_FileNotFoundError
          (pd.read_csv parse_csv input_csv)
          (print "Error: CSV file not found.";; sys_exit 1);
  let df_clean := df_clean df in
  print "Starting Task 1...";;
  (if decide (col_employment ∉ pd.columns df_clean) then print warning else mret ());;
  task1_df ← lift (task1_df df_clean);
  task1_means ← lift (task1_means task1_df);
  task1_melted ← lift (task1_melted task1_df);
  png ← lift (barplot task1_melted);
  write_file "task1_priorities.png" png;;
  print "Task 1 completed. Saved task1_priorities.png";;
  print "Starting Task 2...";;
  task2_df ← lift (task2_df df_clean);
  task2_crosstab ← lift (task2_crosstab task2_df);
  task2_crosstab ← lift (task2_reordered task2_crosstab);
  png ← lift (barh_stacked task2_crosstab);
  write_file "task2_earnings.png" png;;
  print "Task 2 completed. Saved task2_earnings.png";;
  print "Generating summary...";;
  write_summary task1_means task2_crosstab;;
  print "Summary saved to results_summary.csv".

End analyze_survey.

(** ** What the specification speaks of, read off the rows

    These definitions follow the wording of the specification, not the
    steps of the script; the theorems compare them with what the script
    computes. *)

(** The cell of a row under a field name. *)
Definition field_of (df : pd.DataFrame) (col : string) (r : nat * list pd.cell) : pd.cell :=
  match pd.get_loc col (pd.columns df) with
  | Some p => pd.cell_at p r.2
  | None => pd.NaN
  end.

(** The coerced numeric value of a ranking field in a row. *)
Definition rank_value (parse_number : string → option Qc) (df_clean : pd.DataFrame)
    (col : string) (r : nat * list pd.cell) : pd.cell :=
  pd.to_numeric_cell parse_number (field_of df_clean col r).

(** A row that Task 1 is to use: the employment field and the coerced
    value of each of the six ranking fields are there. *)
Definition task1_complete (parse_number : string → option Qc) (df_clean : pd.DataFrame)
    (r : nat * list pd.cell) : Prop :=
  field_of df_clean col_employment r ≠ pd.NaN
  ∧ Forall (λ col, rank_value parse_number df_clean col r ≠ pd.NaN) (keys col_rankings).

#[global] Instance task1_complete_dec parse_number df_clean r :
  Decision (task1_complete parse_number df_clean r).
Proof. unfold task1_complete. apply _. Defined.

(** The complete rows of a group, and the numbers a ranking field has in
    them. *)
Definition group_rows (parse_number : string → option Qc) (df_clean : pd.DataFrame)
    (g : pd.cell) : list (nat * list pd.cell) :=
  filter (λ r, task1_complete parse_number df_clean r
               ∧ field_of df_clean col_employment r = g)
    (pd.rows df_clean).

Definition group_ranks (parse_number : string → option Qc) (df_clean : pd.DataFrame)
    (g : pd.cell) (col : string) : list Qc :=
  pd.numbers (rank_value parse_number df_clean col <$> group_rows parse_number df_clean g).

Definition arithmetic_mean (xs : list Qc) : Qc :=
  (Qc_sum xs / Qc_of_nat (length xs))%Qc.

(** A respondent that Task 2 is to count: program type "MAcc" or "MBA" and
    no missing value in either selected field. *)
Definition task2_retained (df_clean : pd.DataFrame) (r : nat * list pd.cell) : Prop :=
  (field_of df_clean col_program r = pd.Str "MAcc"
   ∨ field_of df_clean col_program r = pd.Str "MBA")
  ∧ field_of df_clean col_program r ≠ pd.NaN
  ∧ field_of df_clean col_earnings r ≠ pd.NaN.

#[global] Instance task2_retained_dec df_clean r : Decision (task2_retained df_clean r).
Proof. unfold task2_retained. apply _. Defined.

(** The cleaned table without the rows Task 2 is to exclude. *)
Definition task2_only (df_clean : pd.DataFrame) : pd.DataFrame :=
  {| pd.columns := pd.columns df_clean;
     pd.rows := filter (task2_retained df_clean) (pd.rows df_clean) |}.

(** Respondents of a program type, and those among them giving a belief,
    in the filtered frame of Task 2. *)
Definition respondents_of (program : pd.cell) (task2_df : pd.DataFrame) : nat :=
  length (filter (λ r, field_of task2_df "Program Type" r = program) (pd.rows task2_df)).

Definition respondents_giving (program belief : pd.cell) (task2_df : pd.DataFrame) : nat :=
  length (filter (λ r, field_of task2_df "Program Type" r = program
                       ∧ field_of task2_df "Lifetime Earnings Belief" r = belief)
            (pd.rows task2_df)).

(** The text of the summary as section 4.5 words it: the header of
    Task 1, the mean-rank table, a blank line, the header of Task 2, the
    percentage table. *)
Definition summary_text (to_csv : pd.Table → string) (T1 T2 : pd.Table) : string :=
  task1_header +:+ to_csv T1 +:+ newline +:+ task2_header +:+ to_csv T2.

(** ** Shapes the proofs go through *)

(** Lines 93-123 in one piece: the percentage table of a cleaned table. *)
Definition task2_table (df_clean : pd.DataFrame) : result pd.Table :=
  task2_df ← task2_df df_clean;
  task2_crosstab ← task2_crosstab task2_df;
  task2_reordered task2_crosstab.

(** The row of the frame of Task 1 that a row of the cleaned table gives,
    [locs] being the positions of the employment field and of the ranking
    fields: the employment cell, then the coerced ranking cells. *)
Definition task1_row (parse_number : string → option Qc) (locs : list nat)
    (r : nat * list pd.cell) : nat * list pd.cell :=
  (r.1,
   match locs with
   | [] => []
   | p :: ps => pd.cell_at p r.2
                :: ((λ q, pd.to_numeric_cell parse_number (pd.cell_at q r.2)) <$> ps)
   end).

(** The cell that stands under a column label in a row of a table. *)
Definition under (cols : list pd.cell) (row : list pd.cell) (c : pd.cell) : pd.cell :=
  match pd.get_loc c cols with Some p => pd.cell_at p row | None => pd.NaN end.

(** The lines a run prints when nothing fails. *)
Definition success_lines : list string :=
  [ "Starting Task 1...";
    "Task 1 completed. Saved task1_priorities.png";
    "Starting Task 2...";
    "Task 2 completed. Saved task2_earnings.png";
    "Generating summary...";
    "Summary saved to results_summary.csv" ].

(** What a run leaves behind when every stage succeeds. *)
Definition success_world (to_csv : pd.Table → string) (w : World)
    (png1 png2 : string) (T1 T2 : pd.Table) : World :=
  {| files :=
       <["results_summary.csv" := summary_text to_csv T1 T2]>
         (<["task2_earnings.png" := png2]>
            (<["task1_priorities.png" := png1]> (files w)));
     stdout := stdout w ++ success_lines |}.

(** A world after more lines were printed and files written, and the
    programs whose outcome, printed lines and written files are fixed by
    the input file alone (none of the writes going to the input file). *)
Definition extend (w : World) (lines : list string) (writes : list (string * string))
  : World :=
  {| files := foldl (λ m kv, <[kv.1 := kv.2]> m) (files w) writes;
     stdout := stdout w ++ lines |}.

Definition uniform {A} (m : M A) : Prop :=
  ∀ w w', files w !! input_csv = files w' !! input_csv →
    ∃ r lines writes,
      Forall (λ kv : string * string, kv.1 ≠ input_csv) writes
      ∧ m w = (r, extend w lines writes)
      ∧ m w' = (r, extend w' lines writes).

(** The last content written under a name, if any. *)
Fixpoint last_write (k : string) (writes : list (string * string)) : option string :=
  match writes with
  | [] => None
  | kv :: writes' =>
      match last_write k writes' with
      | Some v => Some v
      | None => if decide (k = kv.1) then Some kv.2 else None
      end
  end.

(** Lines 47-78 and lines 93-147 in one piece each: the table and the
    chart of a task, or the first exception on the way. *)
Definition task1_stage (parse_number : string → option Qc)
    (barplot : pd.DataFrame → result string) (df_clean : pd.DataFrame)
  : result (pd.Table * string) :=
  task1_df ← task1_df parse_number df_clean;
  task1_means ← task1_means task1_df;
  task1_melted ← task1_melted task1_df;
  png ← barplot task1_melted;
  mret (task1_means, png).

Definition task2_stage (barh_stacked : pd.Table → result string)
    (df_clean : pd.DataFrame) : result (pd.Table * string) :=
  task2_crosstab ← task2_table df_clean;
  png ← barh_stacked task2_crosstab;
  mret (task2_crosstab, png).

(** The lines printed up to the selection of line 47. *)
Definition task1_start_lines (df_clean : pd.DataFrame) : list string :=
  "Starting Task 1..." ::
  (if decide (col_employment ∉ pd.columns df_clean) then [warning] else []).

(** ** A concrete instance of the library parameters

    Plain comma-separated text without quoting, unsigned decimal ranks, a
    printer of tables that writes fractions as [n/d], and renderers that
    always succeed.  It is what the example runs below are evaluated with. *)

Module sample.

Fixpoint split_on (sep : Ascii.ascii) (s : string) : list string :=
  match s with
  | EmptyString => [EmptyString]
  | String a s' =>
      if decide (a = sep) then EmptyString :: split_on sep s'
      else match split_on sep s' with
           | [] => [String a EmptyString]
           | w :: ws => String a w :: ws
           end
  end.

Definition lines (s : string) : list string :=
  filter (λ l, l ≠ EmptyString) (split_on (Ascii.ascii_of_nat 10) s).

Definition comma : Ascii.ascii := Ascii.ascii_of_nat 44.

Definition field (s : string) : pd.cell :=
  if decide (s = EmptyString) then pd.NaN else pd.Str s.

Definition parse_csv (text : string) : result (list string * list (list pd.cell)) :=
  match lines text with
  | [] => Raise (LibraryError "EmptyDataError")
  | header :: data =>
      Ok (split_on comma header, (λ l, field <$> split_on comma l) <$> data)
  end.

Definition digit (a : Ascii.ascii) : option nat :=
  let n := Ascii.nat_of_ascii a in
  if decide (48 ≤ n ≤ 57)%nat then Some (n - 48)%nat else None.

Fixpoint digits (acc : nat) (s : string) : option nat :=
  match s with
  | EmptyString => Some acc
  | String a s' => d ← digit a; digits (10 * acc + d) s'
  end.

Definition parse_number (s : string) : option Qc :=
  match s with
  | EmptyString => None
  | _ => Qc_of_nat <$> digits 0 s
  end.

Definition show_Z (z : Z) : string :=
  match z with
  | Z0 => "0"
  | Zpos p => pretty (Npos p)
  | Zneg p => "-" +:+ pretty (Npos p)
  end.

Definition show_cell (c : pd.cell) : string :=
  match c with
  | pd.NaN => ""
  | pd.Str s => s
  | pd.Num q =>
      if decide (Qden q = 1%positive) then show_Z (Qnum q)
      else show_Z (Qnum q) +:+ "/" +:+ pretty (Npos (Qden q))
  end.

Definition join (sep : string) (l : list string) : string :=
  match l with
  | [] => ""
  | x :: l' => foldl (λ acc y, acc +:+ sep +:+ y) x l'
  end.

Definition to_csv (t : pd.Table) : string :=
  String.concat ""
    ((λ l, join "," l +:+ newline) <$>
       ((pd.tindex_name t :: (show_cell <$> pd.tcolumns t)) ::
        zip_with (λ g row, show_cell g :: (show_cell <$> row))
                 (pd.tindex t) (pd.tvalues t))).

Definition barplot (long : pd.DataFrame) : result string := Ok "bars".
Definition barh_stacked (t : pd.Table) : result string := Ok "stacked bars".

Definition main : M unit := main parse_csv parse_number barplot barh_stacked to_csv.

End sample.

(** ** Sample inputs used by the example runs *)

Definition one_row_table : pd.DataFrame :=
  {| pd.columns := ["Q47"];
     pd.rows := [(0%nat, [pd.Str "Do you currently work in a CPA firm?"])] |}.

Definition csv_lines (ls : list string) : string :=
  foldr (λ l text, l +:+ newline +:+ text) "" ls.

(** An export with the nine fields: the header, the two metadata rows,
    and six responses, one with a rank that is no number, one without
    employment answer, one from another program, one without belief. *)
Definition sample_csv : string :=
  csv_lines
    [ "Q47,Q24_1,Q24_2,Q24_3,Q24_4,Q24_5,Q24_6,Q58,Q44";
      "Do you currently work in a CPA firm?,r1,r2,r3,r4,r5,r6,Program,Belief";
      "ImportId47,Id1,Id2,Id3,Id4,Id5,Id6,Id58,Id44";
      "Yes,1,2,3,4,5,6,MAcc,Definitely yes";
      "No,2,1,3,4,6,5,MBA,Probably not";
      "Yes,2,1,4,3,5,6,MAcc,Probably not";
      "Yes,x,1,4,3,5,6,PhD,Definitely not";
      ",1,2,3,4,5,6,MBA,Unsure";
      "No,1,2,3,4,5,6,MBA," ].

(** The same export without the program-type field, without one ranking
    field, and without the employment field. *)
Definition csv_without_program : string :=
  csv_lines
    [ "Q47,Q24_1,Q24_2,Q24_3,Q24_4,Q24_5,Q24_6,Q44";
      "Do you currently work in a CPA firm?,r1,r2,r3,r4,r5,r6,Belief";
      "ImportId47,Id1,Id2,Id3,Id4,Id5,Id6,Id44";
      "Yes,1,2,3,4,5,6,Definitely yes";
      "No,2,1,3,4,6,5,Probably not" ].

Definition csv_without_ranking : string :=
  csv_lines
    [ "Q47,Q24_1,Q24_2,Q24_4,Q24_5,Q24_6,Q58,Q44";
      "Do you currently work in a CPA firm?,r1,r2,r4,r5,r6,Program,Belief";
      "ImportId47,Id1,Id2,Id4,Id5,Id6,Id58,Id44";
      "Yes,1,2,4,5,6,MAcc,Definitely yes";
      "No,2,1,4,6,5,MBA,Probably not" ].

Definition csv_without_employment : string :=
  csv_lines
    [ "Q24_1,Q24_2,Q24_3,Q24_4,Q24_5,Q24_6,Q58,Q44";
      "r1,r2,r3,r4,r5,r6,Program,Belief";
      "Id1,Id2,Id3,Id4,Id5,Id6,Id58,Id44";
      "1,2,3,4,5,6,MAcc,Definitely yes";
      "2,1,3,4,6,5,MBA,Probably not" ].

Definition world_with (text : string) : World :=
  {| files := {[ input_csv := text ]}; stdout := [] |}.

Definition empty_world : World := {| files := ∅; stdout := [] |}.

Definition sample_clean : pd.DataFrame :=
  Eval vm_compute in
    match sample.parse_csv sample_csv with
    | Ok parsed => df_clean (pd.frame_of parsed)
    | Raise _ => {| pd.columns := []; pd.rows := [] |}
    end.

(** Renderers that raise, as the plotting does on data it cannot draw. *)
Definition failing_barplot (long : pd.DataFrame) : result string :=
  Raise (LibraryError "ValueError").

Definition failing_barh_stacked (t : pd.Table) : result string :=
  Raise (LibraryError "TypeError: no numeric data to plot").

(** * Properties *)

(** ** Lists *)

Lemma filter_ext_elem {A} (P Q : A → Prop)
    `{∀ x, Decision (P x)} `{∀ x, Decision (Q x)} (l : list A) :
  (∀ x, x ∈ l → P x ↔ Q x) → filter P l = filter Q l.
Proof.
  induction l as [|x l IH]; intros HPQ; [done|].
  rewrite !filter_cons.
  assert (P x ↔ Q x) as Hx by (apply HPQ; left).
  rewrite IH by (intros y Hy; apply HPQ; by right).
  destruct (decide (P x)), (decide (Q x)); tauto.
Qed.

Lemma filter_fmap_comm {A B} (f : A → B) (P : B → Prop)
    `{∀ y, Decision (P y)} (l : list A) :
  filter P (f <$> l) = f <$> filter (λ x, P (f x)) l.
Proof.
  induction l as [|x l IH]; [done|].
  rewrite fmap_cons, !filter_cons. cbn.
  destruct (decide (P (f x))); rewrite IH; done.
Qed.

(** ** The labels of a grouped axis *)

Lemma sorted_unique_perm l : pd.sorted_unique l ≡ₚ remove_dups l.
Proof. apply merge_sort_Permutation. Qed.

Lemma elem_of_sorted_unique x l : x ∈ pd.sorted_unique l ↔ x ∈ l.
Proof. rewrite sorted_unique_perm. apply elem_of_remove_dups. Qed.

Lemma NoDup_sorted_unique l : NoDup (pd.sorted_unique l).
Proof. rewrite sorted_unique_perm. apply NoDup_remove_dups. Qed.

(** ** Metadata stripper (line 21) *)

Lemma df_clean_values df : pd.values (df_clean df) = drop 2 (pd.values df).
Proof.
  unfold df_clean, pd.reset_index, pd.iloc_from, pd.values; cbn.
  rewrite snd_zip by (rewrite length_seq, length_fmap; lia).
  by rewrite fmap_drop.
Qed.

Lemma df_clean_index df :
  pd.index (df_clean df) = seq 0 (length (pd.rows df) - 2).
Proof.
  unfold df_clean, pd.reset_index, pd.iloc_from, pd.index, pd.values; cbn.
  rewrite fst_zip by (rewrite length_seq, length_fmap; lia).
  by rewrite length_drop.
Qed.

Lemma df_clean_length df :
  length (pd.rows (df_clean df)) = (length (pd.rows df) - 2)%nat.
Proof.
  rewrite <- (length_fmap fst (pd.rows (df_clean df))).
  fold (pd.index (df_clean df)). by rewrite df_clean_index, length_seq.
Qed.

(** C3, amended: stripping a raw table of N rows leaves max(N-2, 0) rows,
    that is exactly N-2 whenever N is at least 2; the index of the result
    is 0, 1, 2, ...; the field names are kept; and the row at position i
    of the result is the raw row at position i+2 whatever the rows
    contain, so the first row of the result, when there is one, is the raw
    row at position 2. *)
Theorem df_clean_strips_two_rows (df : pd.DataFrame) :
  Z.of_nat (length (pd.rows (df_clean df))) =
    Z.max 0 (Z.of_nat (length (pd.rows df)) - 2)
  ∧ pd.index (df_clean df) = seq 0 (length (pd.rows (df_clean df)))
  ∧ pd.columns (df_clean df) = pd.columns df
  ∧ (∀ i : nat, pd.values (df_clean df) !! i = pd.values df !! (2 + i)%nat)
  ∧ pd.values (df_clean df) !! 0%nat = pd.values df !! 2%nat.
Proof.
  rewrite df_clean_index, df_clean_length, df_clean_values.
  split; [lia|]. split; [done|]. split; [done|].
  split; [intros i; apply lookup_drop | apply (lookup_drop _ 2 0)].
Qed.

(** C3 as stated fails on a table with a single row: nothing is left, which
    is not N-2 = -1 rows, and one row was removed, not two. *)
Lemma df_clean_one_row_table :
  length (pd.rows one_row_table) = 1%nat
  ∧ pd.rows (df_clean one_row_table) = []
  ∧ Z.of_nat (length (pd.rows (df_clean one_row_table))) ≠
      (Z.of_nat (length (pd.rows one_row_table)) - 2)%Z
  ∧ (length (pd.rows one_row_table) - length (pd.rows (df_clean one_row_table)))%nat
      ≠ 2%nat.
Proof. cbn. repeat split; lia. Qed.

(** ** Likert column order (lines 119-122) *)

Lemma likert_labels_NoDup : NoDup (pd.Str <$> likert_order).
Proof. apply (bool_decide_unpack _). vm_compute. exact I. Qed.

Lemma elem_of_existing_order val cols :
  val ∈ existing_order cols ↔ val ∈ likert_order ∧ pd.Str val ∈ cols.
Proof. unfold existing_order. rewrite list_elem_of_filter. tauto. Qed.

Lemma existing_order_labels cols :
  pd.Str <$> existing_order cols = filter (λ c, c ∈ cols) (pd.Str <$> likert_order).
Proof. unfold existing_order. by rewrite filter_fmap_comm. Qed.

(** The labels left for [others] are the ones outside the scale. *)
Lemma others_out_of_scale cols :
  others cols = filter (λ c, c ∉ pd.Str <$> likert_order) cols.
Proof.
  unfold others. apply filter_ext_elem. intros c Hc.
  rewrite existing_order_labels, list_elem_of_filter. tauto.
Qed.

(** C4: the final order lists the labels of the five-point scale that are
    present among the columns, in the canonical order of the scale, and
    then the out-of-scale columns in the order the table has them; on the
    columns "Probably not", "Definitely yes", "Might or might not" (as
    given, and in the sorted order a cross-tabulation has them) it is
    "Definitely yes", "Might or might not", "Probably not". *)
Theorem final_order_likert_first (cols : list pd.cell) :
  final_order cols =
    (pd.Str <$> filter (λ val, pd.Str val ∈ cols)
       ["Definitely yes"; "Probably yes"; "Might or might not";
        "Probably not"; "Definitely not"])
    ++ filter (λ c, c ∉ pd.Str <$> likert_order) cols
  ∧ final_order
      [pd.Str "Probably not"; pd.Str "Definitely yes"; pd.Str "Might or might not"]
    = [pd.Str "Definitely yes"; pd.Str "Might or might not"; pd.Str "Probably not"]
  ∧ final_order
      (pd.sorted_unique
         [pd.Str "Probably not"; pd.Str "Definitely yes"; pd.Str "Might or might not"])
    = [pd.Str "Definitely yes"; pd.Str "Might or might not"; pd.Str "Probably not"].
Proof.
  split; [|split; vm_compute; reflexivity].
  unfold final_order. by rewrite others_out_of_scale.
Qed.

Lemma final_order_rearranges cols : NoDup cols → final_order cols ≡ₚ cols.
Proof.
  intros Hnd. unfold final_order.
  rewrite others_out_of_scale, existing_order_labels.
  etrans; [|apply (filter_app_complement (λ c, c ∈ pd.Str <$> likert_order) cols)].
  apply Permutation_app_tail, NoDup_Permutation.
  - apply NoDup_filter, likert_labels_NoDup.
  - by apply NoDup_filter.
  - intros c. rewrite !list_elem_of_filter. tauto.
Qed.

(** ** Counting and exact arithmetic *)

Local Open Scope Qc_scope.

Lemma count_cons x o obs :
  pd.count x (o :: obs) = ((if decide (o = x) then 1 else 0) + pd.count x obs)%nat.
Proof. unfold pd.count. rewrite filter_cons. by destruct (decide (o = x)). Qed.

Lemma sum_list_with_add {A} (f g : A → nat) (l : list A) :
  sum_list_with (λ x, f x + g x)%nat l = (sum_list_with f l + sum_list_with g l)%nat.
Proof. induction l; cbn; lia. Qed.

Lemma sum_indicator (o : pd.cell * pd.cell) (p : pd.cell) (ckeys : list pd.cell) :
  NoDup ckeys →
  sum_list_with (λ c, if decide (o = (p, c)) then 1 else 0)%nat ckeys =
    if decide (o.1 = p ∧ o.2 ∈ ckeys) then 1%nat else 0%nat.
Proof.
  induction 1 as [|c ckeys Hc Hnd IH]; cbn [sum_list_with].
  - destruct (decide _) as [[_ H]|]; [by apply elem_of_nil in H|done].
  - rewrite IH. destruct o as [o1 o2]; cbn.
    destruct (decide ((o1, o2) = (p, c))) as [[= -> ->]|Hne].
    + rewrite decide_False by (intros [_ ?]; done).
      rewrite decide_True; [done|]. split; [done|left].
    + destruct (decide (o1 = p ∧ o2 ∈ ckeys)) as [[-> Hin]|Hn].
      * rewrite decide_True; [done|]. split; [done|by right].
      * rewrite decide_False; [done|]. intros [-> [->|Hin]%elem_of_cons]; tauto.
Qed.

(** Counting a pair over the distinct second components. *)
Lemma count_partition (p : pd.cell) (obs : list (pd.cell * pd.cell)) (ckeys : list pd.cell) :
  NoDup ckeys → (∀ o, o ∈ obs → o.2 ∈ ckeys) →
  sum_list_with (λ c, pd.count (p, c) obs) ckeys = length (filter (λ o, o.1 = p) obs).
Proof.
  intros Hnd. induction obs as [|o obs IH]; intros Hin.
  - cbn. clear. induction ckeys as [|c ckeys IH]; cbn; [done|]. by rewrite IH.
  - assert (sum_list_with (λ c, pd.count (p, c) (o :: obs)) ckeys =
            ((if decide (o.1 = p) then 1 else 0) +
             sum_list_with (λ c, pd.count (p, c) obs) ckeys)%nat) as ->.
    { rewrite <- (decide_ext (o.1 = p ∧ o.2 ∈ ckeys) (o.1 = p)).
      2:{ split; [tauto|]. intros ?. split; [done|]. apply Hin. left. }
      rewrite <- sum_indicator, <- sum_list_with_add by done.
      clear. induction ckeys as [|c ckeys IH]; cbn [sum_list_with]; [done|].
      by rewrite count_cons, IH. }
    rewrite IH by (intros ??; apply Hin; by right).
    rewrite filter_cons. destruct (decide (o.1 = p)); cbn; lia.
Qed.

Lemma Qc_of_nat_add a b : Qc_of_nat (a + b) = Qc_of_nat a + Qc_of_nat b.
Proof.
  unfold Qc_of_nat. apply Qc_is_canon. simpl.
  rewrite !Qred_correct. rewrite Nat2Z.inj_add, inject_Z_plus. reflexivity.
Qed.
Lemma Qc_of_nat_ne_0 n : (0 < n)%nat → Qc_of_nat n ≠ 0.
Proof.
  intros Hn E. unfold Qc_of_nat in E. apply Q2Qc_eq_iff in E.
  unfold Qeq in E; simpl in E. lia.
Qed.

Lemma Qc_sum_of_nat {A} (f : A → nat) (l : list A) :
  Qc_sum ((λ x, Qc_of_nat (f x)) <$> l) = Qc_of_nat (sum_list_with f l).
Proof.
  induction l as [|x l IH]; [done|].
  cbn. rewrite Qc_of_nat_add. unfold Qc_sum in IH. by rewrite IH.
Qed.

Lemma Qc_sum_scale {A} (f : A → Qc) (d k : Qc) (l : list A) :
  Qc_sum ((λ x, f x / d * k) <$> l) = Qc_sum (f <$> l) / d * k.
Proof.
  induction l as [|x l IH]; cbn.
  - unfold Qcdiv. ring.
  - unfold Qc_sum in IH. rewrite IH. unfold Qcdiv. ring.
Qed.

(** ** Label positions, masks, and the filtered frame of Task 2 (lines 93-100) *)

Lemma mask_filter {A B} (f : A → B) (Q : B → Prop) `{∀ y, Decision (Q y)} (l : list A) :
  (filter (λ rb : A * bool, rb.2 = true)
     (zip l ((λ y, bool_decide (Q y)) <$> (f <$> l)))).*1
  = filter (λ x, Q (f x)) l.
Proof.
  induction l as [|x l IH]; [done|].
  cbn [fmap list_fmap zip zip_with]. rewrite !filter_cons. cbn [snd].
  destruct (decide (Q (f x))) as [HQ|HQ].
  - rewrite (bool_decide_eq_true_2 _ HQ). rewrite decide_True by done.
    cbn. by rewrite <- IH.
  - rewrite (bool_decide_eq_false_2 _ HQ). rewrite decide_False by done. done.
Qed.

Lemma get_locs_cons n names cols :
  pd.get_locs (n :: names) cols =
    p ← pd.get_loc n cols; ps ← pd.get_locs names cols; Some (p :: ps).
Proof. reflexivity. Qed.

Lemma get_loc_Some {A} `{EqDecision A} (c : A) cols p :
  pd.get_loc c cols = Some p → cols !! p = Some c.
Proof.
  revert p. induction cols as [|c' cols IH]; intros p; cbn; [done|].
  case_decide; [intros [= <-]; by subst|].
  destruct (pd.get_loc c cols) as [q|]; cbn; [|done]. intros [= <-]. by apply IH.
Qed.

Lemma get_loc_is_Some {A} `{EqDecision A} (c : A) cols :
  is_Some (pd.get_loc c cols) ↔ c ∈ cols.
Proof.
  induction cols as [|c' cols IH]; cbn.
  - split; [by intros [? ?]|by intros ?%elem_of_nil].
  - case_decide; subst.
    + split; [left|eauto].
    + rewrite elem_of_cons, <- IH, fmap_is_Some. split; [by right|by intros [?|?]].
Qed.

Lemma get_loc_None {A} `{EqDecision A} (c : A) cols :
  pd.get_loc c cols = None ↔ c ∉ cols.
Proof. rewrite <- get_loc_is_Some, eq_None_not_Some. done. Qed.

(** Column labels of the script are literals: positions and renamings
    among them are computed. *)
Ltac compute_labels :=
  repeat match goal with
  | |- context [pd.get_loc ?c ?cs] =>
      let v := eval vm_compute in (pd.get_loc c cs) in
      lazymatch v with
      | Some _ => change (pd.get_loc c cs) with v
      | None => change (pd.get_loc c cs) with v
      end
  | |- context [default ?c (dict_get ?c ?m)] =>
      let v := eval vm_compute in (default c (dict_get c m)) in
      progress change (default c (dict_get c m)) with v
  end.

Lemma task2_df_rows (dfc : pd.DataFrame) i j :
  pd.get_loc col_program (pd.columns dfc) = Some i →
  pd.get_loc col_earnings (pd.columns dfc) = Some j →
  task2_df dfc =
    Ok {| pd.columns := ["Program Type"; "Lifetime Earnings Belief"];
          pd.rows :=
            (λ r, (r.1, [pd.cell_at i r.2; pd.cell_at j r.2])) <$>
              filter (task2_retained dfc) (pd.rows dfc) |}.
Proof.
  intros Hi Hj. unfold task2_df, pd.getitem_list.
  rewrite !get_locs_cons, Hi, Hj.
  cbn [mbind option_bind result_bind pd.get_locs mapM mret option_ret].
  unfold pd.rename, pd.getitem. cbn [pd.columns pd.rows pd.take_locs fmap list_fmap].
  compute_labels. cbn [mbind result_bind mret result_ret].
  unfold pd.getitem_mask, pd.isin, pd.dropna. cbn [pd.columns pd.rows pd.scells].
  f_equal. f_equal.
  rewrite mask_filter, list_filter_filter, filter_fmap_comm. f_equal.
  apply list_filter_iff. intros r. unfold task2_retained, field_of.
  rewrite Hi, Hj. cbn. unfold pd.cell_at. cbn.
  rewrite !Forall_cons, Forall_nil, !elem_of_cons, elem_of_nil. unfold pd.notna. tauto.
Qed.

(** ** Task 2: the cross-tabulation (line 116) *)

Lemma numbers_Num {A} (f : A → Qc) (l : list A) :
  pd.numbers ((λ x, pd.Num (f x)) <$> l) = f <$> l.
Proof. induction l as [|x l IH]; [done|]. cbn. unfold pd.numbers in IH. by rewrite IH. Qed.

Lemma crosstab_values (k : Qc) (a b : pd.Series) :
  let obs := pd.observations a b in
  pd.tvalues (pd.mul_scalar k (pd.crosstab a b)) =
    (λ p, (λ c, pd.Num (Qc_of_nat (pd.count (p, c) obs)
                        / Qc_of_nat (length (filter (λ o, o.1 = p) obs)) * k))
          <$> pd.sorted_unique obs.*2)
    <$> pd.sorted_unique obs.*1.
Proof.
  intros obs. unfold pd.crosstab, pd.normalize_index, pd.mul_scalar, pd.crosstab_counts.
  cbn [pd.tvalues]. fold obs. rewrite <- !list_fmap_compose.
  apply list_fmap_ext. intros _ p _. cbn [compose].
  rewrite numbers_Num, <- list_fmap_compose.
  rewrite (Qc_sum_of_nat (λ c, pd.count (p, c) obs)), count_partition.
  - by rewrite <- list_fmap_compose.
  - apply NoDup_sorted_unique.
  - intros o Ho. apply elem_of_sorted_unique, list_elem_of_fmap. eauto.
Qed.

Lemma observations_complete {A} (f g : A → pd.cell) (l : list A) n m :
  Forall (λ x, pd.notna (f x) ∧ pd.notna (g x)) l →
  pd.observations (pd.mkSeries n (f <$> l)) (pd.mkSeries m (g <$> l))
  = (λ x, (f x, g x)) <$> l.
Proof.
  intros Hl. unfold pd.observations. cbn [pd.scells].
  induction Hl as [|x l Hx Hl IH]; [done|].
  cbn [fmap list_fmap zip zip_with]. rewrite filter_cons, decide_True by done.
  f_equal. apply IH.
Qed.

Lemma count_fmap {A} (f g : A → pd.cell) (l : list A) p c :
  pd.count (p, c) ((λ x, (f x, g x)) <$> l) = length (filter (λ x, f x = p ∧ g x = c) l).
Proof.
  unfold pd.count. rewrite filter_fmap_comm, length_fmap. f_equal.
  apply list_filter_iff. intros x. split; [by intros [= -> ->]|by intros [-> ->]].
Qed.

Lemma task2_crosstab_frame rs :
  task2_crosstab {| pd.columns := ["Program Type"; "Lifetime Earnings Belief"];
                    pd.rows := rs |}
  = Ok (pd.mul_scalar (Qc_of_nat 100)
          (pd.crosstab
             (pd.mkSeries "Program Type" ((λ r, pd.cell_at 0 r.2) <$> rs))
             (pd.mkSeries "Lifetime Earnings Belief" ((λ r, pd.cell_at 1 r.2) <$> rs)))).
Proof. unfold task2_crosstab, pd.getitem. cbn [pd.columns pd.rows]. by compute_labels. Qed.


Lemma crosstab_columns k a b :
  pd.tcolumns (pd.mul_scalar k (pd.crosstab a b)) = pd.sorted_unique (pd.observations a b).*2.
Proof. reflexivity. Qed.

Lemma crosstab_columns_NoDup k a b : NoDup (pd.tcolumns (pd.mul_scalar k (pd.crosstab a b))).
Proof. rewrite crosstab_columns. apply NoDup_sorted_unique. Qed.

Lemma crosstab_row_total (obs : list (pd.cell * pd.cell)) p :
  p ∈ pd.sorted_unique obs.*1 → (0 < length (filter (λ o, o.1 = p) obs))%nat.
Proof.
  intros Hp. apply elem_of_sorted_unique, list_elem_of_fmap in Hp as (o & -> & Ho).
  assert (o ∈ filter (λ o', o'.1 = o.1) obs) as Hin by (by apply list_elem_of_filter).
  destruct (filter _ obs); [by apply elem_of_nil in Hin|cbn; lia].
Qed.

Lemma percent_row_sum (obs : list (pd.cell * pd.cell)) p (k : Qc) :
  (0 < length (filter (λ o, o.1 = p) obs))%nat →
  Qc_sum (pd.numbers
            ((λ c, pd.Num (Qc_of_nat (pd.count (p, c) obs)
                           / Qc_of_nat (length (filter (λ o, o.1 = p) obs)) * k))
             <$> pd.sorted_unique obs.*2)) = k.
Proof.
  intros Ht.
  rewrite (numbers_Num (λ c, Qc_of_nat (pd.count (p, c) obs) / _ * k)).
  rewrite (Qc_sum_scale (λ c, Qc_of_nat (pd.count (p, c) obs))).
  rewrite (Qc_sum_of_nat (λ c, pd.count (p, c) obs)), count_partition.
  - field. by apply Qc_of_nat_ne_0.
  - apply NoDup_sorted_unique.
  - intros o Ho. apply elem_of_sorted_unique, list_elem_of_fmap. eauto.
Qed.


(** ** Task 2: reordering the columns (lines 119-123) *)

Lemma get_loc_cons_ne {A} `{EqDecision A} (c c' : A) cols :
  c ≠ c' → pd.get_loc c (c' :: cols) = S <$> pd.get_loc c cols.
Proof. intros Hne. cbn. by rewrite decide_False. Qed.

Lemma table_getitem_list_ok (labels : list pd.cell) (t : pd.Table) :
  (∀ c, c ∈ labels → c ∈ pd.tcolumns t) →
  ∃ locs,
    Forall2 (λ c p, pd.get_loc c (pd.tcolumns t) = Some p) labels locs
    ∧ pd.table_getitem_list labels t =
        Ok {| pd.tindex_name := pd.tindex_name t;
              pd.tindex := pd.tindex t;
              pd.tcolumns := labels;
              pd.tvalues := pd.take_locs locs <$> pd.tvalues t |}.
Proof.
  intros Hin.
  destruct (mapM (λ c, pd.get_loc c (pd.tcolumns t)) labels) as [locs|] eqn:E.
  - exists locs. split; [by apply mapM_Some|].
    unfold pd.table_getitem_list. by rewrite E.
  - apply mapM_None in E. apply Exists_exists in E as (c & Hc & E).
    apply get_loc_None in E. destruct E. by apply Hin.
Qed.

Lemma zip_take_locs cols row labels locs :
  Forall2 (λ c p, pd.get_loc c cols = Some p) labels locs →
  zip labels (pd.take_locs locs row) = (λ c, (c, under cols row c)) <$> labels.
Proof.
  induction 1 as [|c p labels locs Hc _ IH]; [done|].
  cbn. unfold under at 1. rewrite Hc. f_equal. apply IH.
Qed.

Lemma zip_under cols row :
  NoDup cols → length row = length cols →
  zip cols row = (λ c, (c, under cols row c)) <$> cols.
Proof.
  intros Hnd. revert row. induction Hnd as [|c cols Hc Hnd IH]; intros row Hlen.
  - by destruct row.
  - destruct row as [|x row]; [done|]. cbn [zip zip_with fmap list_fmap].
    f_equal.
    + unfold under. cbn. by rewrite decide_True.
    + rewrite IH by (cbn in Hlen; lia). apply list_fmap_ext.
      intros _ c' Hc'%list_elem_of_lookup_2. f_equal.
      unfold under. rewrite get_loc_cons_ne by (intros ->; done).
      by destruct (pd.get_loc c' cols).
Qed.

Lemma final_order_elem c cols : c ∈ final_order cols → c ∈ cols.
Proof.
  unfold final_order. rewrite elem_of_app, existing_order_labels, others_out_of_scale.
  rewrite !list_elem_of_filter. tauto.
Qed.

Lemma filter_False {A} (l : list A) : filter (λ _, False) l = [].
Proof.
  induction l as [|x l IH]; [done|].
  rewrite filter_cons. by destruct (decide False).
Qed.

Lemma final_order_others cols :
  filter (λ c, c ∉ pd.Str <$> likert_order) (final_order cols)
  = filter (λ c, c ∉ pd.Str <$> likert_order) cols.
Proof.
  unfold final_order. rewrite filter_app, others_out_of_scale, existing_order_labels.
  rewrite !list_filter_filter.
  rewrite (filter_ext_elem _ (λ _, False)), (filter_ext_elem (λ c, _ ∧ _) (λ c, c ∉ pd.Str <$> likert_order)).
  - by rewrite filter_False.
  - tauto.
  - tauto.
Qed.

Lemma task2_crosstab_inv t2 T :
  task2_crosstab t2 = Ok T →
  ∃ a b, T = pd.mul_scalar (Qc_of_nat 100) (pd.crosstab a b).
Proof.
  unfold task2_crosstab. destruct (pd.getitem "Program Type" t2) as [a|]; [|done].
  destruct (pd.getitem "Lifetime Earnings Belief" t2) as [b|]; [|done].
  intros [= <-]. eauto.
Qed.

Lemma crosstab_row_length k a b row :
  row ∈ pd.tvalues (pd.mul_scalar k (pd.crosstab a b)) →
  length row = length (pd.tcolumns (pd.mul_scalar k (pd.crosstab a b))).
Proof.
  rewrite crosstab_values, crosstab_columns.
  intros (p & -> & _)%list_elem_of_fmap. by rewrite length_fmap.
Qed.

(** C10: the final order is a rearrangement of the columns of the
    cross-tabulation, every column once; the out-of-scale columns keep
    the order they have in the cross-tabulation; and the reordered table
    exists, has the final order as its columns, the same rows, and in
    every row the same cells under the same labels. *)
Theorem final_order_permutation (t2 : pd.DataFrame) (T : pd.Table) :
  task2_crosstab t2 = Ok T →
  final_order (pd.tcolumns T) ≡ₚ pd.tcolumns T
  ∧ NoDup (final_order (pd.tcolumns T))
  ∧ filter (λ c, c ∉ pd.Str <$> likert_order) (final_order (pd.tcolumns T))
    = filter (λ c, c ∉ pd.Str <$> likert_order) (pd.tcolumns T)
  ∧ ∃ T',
      task2_reordered T = Ok T'
      ∧ pd.tcolumns T' = final_order (pd.tcolumns T)
      ∧ pd.tindex T' = pd.tindex T
      ∧ length (pd.tvalues T') = length (pd.tvalues T)
      ∧ ∀ i row, pd.tvalues T !! i = Some row →
          ∃ row', pd.tvalues T' !! i = Some row'
                  ∧ zip (pd.tcolumns T') row' ≡ₚ zip (pd.tcolumns T) row.
Proof.
  intros (a & b & ->)%task2_crosstab_inv.
  pose proof (crosstab_columns_NoDup (Qc_of_nat 100) a b) as Hnd.
  pose proof (final_order_rearranges _ Hnd) as Hperm.
  split; [done|]. split; [by rewrite Hperm|]. split; [apply final_order_others|].
  destruct (table_getitem_list_ok
              (final_order (pd.tcolumns (pd.mul_scalar (Qc_of_nat 100) (pd.crosstab a b))))
              (pd.mul_scalar (Qc_of_nat 100) (pd.crosstab a b)))
    as (locs & Hlocs & Hget); [intros c; apply final_order_elem|].
  eexists. split; [exact Hget|]. cbn [pd.tcolumns pd.tindex pd.tvalues].
  split; [done|]. split; [done|]. split; [by rewrite length_fmap|].
  intros i row Hrow. exists (pd.take_locs locs row).
  split; [by rewrite list_lookup_fmap, Hrow|].
  rewrite (zip_take_locs _ _ _ _ Hlocs), zip_under; [by rewrite Hperm|done|].
  apply crosstab_row_length. eapply list_elem_of_lookup_2, Hrow.
Qed.
(** ** Task 2: which program types reach the table *)

Lemma two_valued_NoDup (A B : pd.cell) (l : list pd.cell) :
  NoDup l → Forall (λ x, x = A ∨ x = B) l →
  l = [] ∨ l = [A] ∨ l = [B] ∨ l = [A; B] ∨ l = [B; A].
Proof.
  intros Hnd Hl.
  destruct l as [|x [|y [|z l]]].
  - by left.
  - apply Forall_cons in Hl as [[-> | ->] _]; tauto.
  - apply Forall_cons in Hl as [Hx Hl]. apply Forall_cons in Hl as [Hy _].
    apply NoDup_cons in Hnd as [Hxy _]. rewrite list_elem_of_singleton in Hxy.
    destruct Hx as [-> | ->], Hy as [-> | ->]; tauto.
  - apply Forall_cons in Hl as [Hx Hl]. apply Forall_cons in Hl as [Hy Hl].
    apply Forall_cons in Hl as [Hz _].
    apply NoDup_cons in Hnd as [Hx' Hnd]. apply NoDup_cons in Hnd as [Hy' _].
    rewrite !elem_of_cons in Hx'. rewrite elem_of_cons in Hy'.
    destruct Hx as [-> | ->], Hy as [-> | ->], Hz as [-> | ->]; tauto.
Qed.

Lemma sorted_unique_two (l : list pd.cell) :
  Forall (λ p, p = pd.Str "MAcc" ∨ p = pd.Str "MBA") l →
  pd.sorted_unique l = filter (λ p, p ∈ l) [pd.Str "MAcc"; pd.Str "MBA"].
Proof.
  intros Hl. unfold pd.sorted_unique.
  rewrite (list_filter_iff (λ p, p ∈ l) (λ p, p ∈ remove_dups l))
    by (intros p; by rewrite elem_of_remove_dups).
  assert (Forall (λ p, p = pd.Str "MAcc" ∨ p = pd.Str "MBA") (remove_dups l)) as Hl'.
  { rewrite Forall_forall in Hl. apply Forall_forall.
    intros p Hp. rewrite elem_of_remove_dups in Hp. by apply Hl. }
  destruct (two_valued_NoDup _ _ _ (NoDup_remove_dups l) Hl')
    as [-> | [-> | [-> | [-> | ->]]]]; vm_compute; reflexivity.
Qed.

Lemma task2_reordered_crosstab a b :
  ∃ locs,
    Forall2 (λ c p, pd.get_loc c (pd.tcolumns (pd.mul_scalar (Qc_of_nat 100) (pd.crosstab a b)))
                    = Some p)
      (final_order (pd.tcolumns (pd.mul_scalar (Qc_of_nat 100) (pd.crosstab a b)))) locs
    ∧ task2_reordered (pd.mul_scalar (Qc_of_nat 100) (pd.crosstab a b)) =
        Ok {| pd.tindex_name := pd.sname a;
              pd.tindex := pd.sorted_unique (pd.observations a b).*1;
              pd.tcolumns := final_order (pd.sorted_unique (pd.observations a b).*2);
              pd.tvalues :=
                pd.take_locs locs <$>
                  pd.tvalues (pd.mul_scalar (Qc_of_nat 100) (pd.crosstab a b)) |}.
Proof.
  destruct (table_getitem_list_ok
              (final_order (pd.tcolumns (pd.mul_scalar (Qc_of_nat 100) (pd.crosstab a b))))
              (pd.mul_scalar (Qc_of_nat 100) (pd.crosstab a b)))
    as (locs & Hlocs & Hget); [intros c; apply final_order_elem|].
  exists locs. split; [done|]. exact Hget.
Qed.

Lemma task2_retained_columns dfc dfc' r :
  pd.columns dfc' = pd.columns dfc → task2_retained dfc' r ↔ task2_retained dfc r.
Proof. intros E. unfold task2_retained, field_of. by rewrite E. Qed.

Lemma task2_df_only dfc i j :
  pd.get_loc col_program (pd.columns dfc) = Some i →
  pd.get_loc col_earnings (pd.columns dfc) = Some j →
  task2_df (task2_only dfc) = task2_df dfc.
Proof.
  intros Hi Hj. rewrite (task2_df_rows dfc i j), (task2_df_rows (task2_only dfc) i j) by done.
  cbn [task2_only pd.rows]. rewrite list_filter_filter. do 3 f_equal.
  apply list_filter_iff. intros r.
  rewrite (task2_retained_columns dfc (task2_only dfc)) by done. tauto.
Qed.

(** C5: for a cleaned table that has the two fields, the filtered frame
    of Task 2 holds the two fields of exactly the rows whose program type
    is "MAcc" or "MBA" and that miss neither value; the percentage table
    is the one obtained when all other rows are taken out of the input
    beforehand; its rows are those of "MAcc" and "MBA", in this order,
    that occur among the retained rows, one row of cells each; so with
    both occurring the table has exactly two rows. *)
Theorem task2_program_types (dfc : pd.DataFrame) :
  col_program ∈ pd.columns dfc → col_earnings ∈ pd.columns dfc →
  ∃ t2 T,
    task2_df dfc = Ok t2 ∧ task2_table dfc = Ok T
    ∧ pd.rows t2 =
        (λ r, (r.1, [field_of dfc col_program r; field_of dfc col_earnings r])) <$>
          filter (task2_retained dfc) (pd.rows dfc)
    ∧ task2_table (task2_only dfc) = Ok T
    ∧ pd.tindex T =
        filter (λ p, Exists (λ r, task2_retained dfc r ∧ field_of dfc col_program r = p)
                       (pd.rows dfc))
          [pd.Str "MAcc"; pd.Str "MBA"]
    ∧ length (pd.tvalues T) = length (pd.tindex T)
    ∧ (Exists (λ r, task2_retained dfc r ∧ field_of dfc col_program r = pd.Str "MAcc")
         (pd.rows dfc) →
       Exists (λ r, task2_retained dfc r ∧ field_of dfc col_program r = pd.Str "MBA")
         (pd.rows dfc) →
       pd.tindex T = [pd.Str "MAcc"; pd.Str "MBA"] ∧ length (pd.tvalues T) = 2%nat).
Proof.
  intros [i Hi]%get_loc_is_Some [j Hj]%get_loc_is_Some.
  set (rs := (λ r : nat * list pd.cell, (r.1, [pd.cell_at i r.2; pd.cell_at j r.2])) <$>
             filter (task2_retained dfc) (pd.rows dfc)).
  set (a := pd.mkSeries "Program Type" ((λ r, pd.cell_at 0 r.2) <$> rs)).
  set (b := pd.mkSeries "Lifetime Earnings Belief" ((λ r, pd.cell_at 1 r.2) <$> rs)).
  destruct (task2_reordered_crosstab a b) as (locs & _ & Hre).
  assert (task2_table dfc =
          task2_reordered (pd.mul_scalar (Qc_of_nat 100) (pd.crosstab a b))) as Htable.
  { unfold task2_table. rewrite (task2_df_rows dfc i j) by done.
    cbn [mbind result_bind]. rewrite task2_crosstab_frame. done. }
  rewrite Hre in Htable.
  assert (pd.observations a b = (λ r, (pd.cell_at 0 r.2, pd.cell_at 1 r.2)) <$> rs) as Hobs.
  { apply (observations_complete (λ r : nat * list pd.cell, pd.cell_at 0 r.2)
             (λ r : nat * list pd.cell, pd.cell_at 1 r.2)).
    apply Forall_forall. intros r (r' & -> & Hr')%list_elem_of_fmap.
    apply list_elem_of_filter in Hr' as [(_ & Hp & He) _].
    unfold field_of in Hp, He. rewrite Hi in Hp. rewrite Hj in He. done. }
  assert ((pd.observations a b).*1 =
          (λ r, field_of dfc col_program r) <$> filter (task2_retained dfc) (pd.rows dfc))
    as Hprog.
  { rewrite Hobs. unfold rs. rewrite <- !list_fmap_compose. apply list_fmap_ext.
    intros _ r _. unfold field_of. by rewrite Hi. }
  assert (pd.sorted_unique (pd.observations a b).*1 =
          filter (λ p, Exists (λ r, task2_retained dfc r ∧ field_of dfc col_program r = p)
                         (pd.rows dfc))
            [pd.Str "MAcc"; pd.Str "MBA"]) as Hindex.
  { rewrite sorted_unique_two.
    - apply list_filter_iff. intros p.
      rewrite Hprog, list_elem_of_fmap, Exists_exists. split.
      + intros (r & -> & [Hret Hr]%list_elem_of_filter). by exists r.
      + intros (r & Hr & Hret & <-). exists r. split; [done|].
        by apply list_elem_of_filter.
    - rewrite Hprog. apply Forall_forall.
      intros p (r & -> & Hr)%list_elem_of_fmap.
      apply list_elem_of_filter in Hr as [(Hp & _) _]. exact Hp. }
  eexists _, _. split; [by apply task2_df_rows|]. split; [exact Htable|].
  cbn [pd.rows pd.tindex pd.tvalues].
  split. { apply list_fmap_ext. intros _ r _. unfold field_of. by rewrite Hi, Hj. }
  split. { unfold task2_table. rewrite (task2_df_only dfc i j) by done. exact Htable. }
  split; [exact Hindex|].
  split. { by rewrite length_fmap, crosstab_values, length_fmap. }
  intros HA HB. rewrite length_fmap, crosstab_values, length_fmap, Hindex.
  rewrite !filter_cons, filter_nil, !decide_True by done. done.
Qed.

(** ** Task 1: the frame of complete rows (lines 47-59) *)

Lemma zip_with_fmap_same {A B C} (f : A → B → C) (g : A → B) (l : list A) :
  zip_with f l (g <$> l) = (λ x, f x (g x)) <$> l.
Proof. induction l as [|x l IH]; [done|]. cbn. by rewrite IH. Qed.

(** One turn of the loop of lines 55-56 on a column that is there. *)
Lemma coerce_column parse_number col cs rs k :
  pd.get_loc col cs = Some k →
  (s ← pd.getitem col {| pd.columns := cs; pd.rows := rs |};
   mret (pd.setitem col (pd.to_numeric parse_number s) {| pd.columns := cs; pd.rows := rs |}))
  = Ok {| pd.columns := cs;
          pd.rows :=
            (λ r, (r.1, pd.set_cell k (pd.to_numeric_cell parse_number (pd.cell_at k r.2)) r.2))
            <$> rs |}.
Proof.
  intros Hk. unfold pd.getitem, pd.setitem. cbn [pd.columns pd.rows].
  rewrite Hk. cbn [mbind result_bind mret result_ret pd.to_numeric pd.scells].
  f_equal. f_equal.
  by rewrite <- list_fmap_compose, zip_with_fmap_same.
Qed.

Lemma task1_df_rows parse_number (dfc : pd.DataFrame) p0 p1 p2 p3 p4 p5 p6 :
  pd.get_locs (col_employment :: keys col_rankings) (pd.columns dfc)
    = Some [p0; p1; p2; p3; p4; p5; p6] →
  task1_df parse_number dfc =
    Ok {| pd.columns := "Work in CPA Firm" :: ranking_cols;
          pd.rows := filter (λ r, Forall pd.notna r.2)
                       (task1_row parse_number [p0; p1; p2; p3; p4; p5; p6] <$> pd.rows dfc) |}.
Proof.
  intros Hlocs. unfold task1_df, pd.getitem_list. rewrite Hlocs.
  cbn [mbind result_bind]. unfold pd.rename. cbn [pd.columns pd.rows].
  cbn [keys col_rankings fmap list_fmap fst snd].
  compute_labels.
  unfold ranking_cols, dict_values, col_rankings. cbn [fmap list_fmap snd for_in].
  repeat (erewrite coerce_column by reflexivity; cbn [mbind result_bind]).
  unfold pd.dropna_subset. cbn [pd.columns pd.rows].
  change (pd.get_locs _ _) with (Some [0; 1; 2; 3; 4; 5; 6]%nat).
  rewrite <- !list_fmap_compose. f_equal. f_equal.
  rewrite (list_fmap_ext _ (task1_row parse_number [p0; p1; p2; p3; p4; p5; p6]) (pd.rows dfc))
    by (intros _ r _; reflexivity).
  apply filter_ext_elem. intros r' (r & -> & _)%list_elem_of_fmap. reflexivity.
Qed.

Lemma task1_means_frame rs :
  task1_means {| pd.columns := "Work in CPA Firm" :: ranking_cols; pd.rows := rs |} =
    Ok {| pd.tindex_name := "Work in CPA Firm";
          pd.tindex :=
            pd.sorted_unique (filter pd.notna ((λ r, pd.cell_at 0 r.2) <$> rs));
          pd.tcolumns := pd.Str <$> ranking_cols;
          pd.tvalues :=
            (λ g, (λ p, pd.mean ((λ r, pd.cell_at p r.2) <$>
                                  filter (λ r, pd.cell_at 0 r.2 = g) rs))
                  <$> [1; 2; 3; 4; 5; 6]%nat)
            <$> pd.sorted_unique (filter pd.notna ((λ r, pd.cell_at 0 r.2) <$> rs)) |}.
Proof.
  unfold task1_means, pd.groupby_mean. cbn [pd.columns pd.rows].
  change (pd.get_loc _ _) with (Some 0%nat).
  change (pd.get_locs _ _) with (Some [1; 2; 3; 4; 5; 6]%nat).
  reflexivity.
Qed.

Lemma to_numeric_cell_notna parse_number c :
  pd.to_numeric_cell parse_number c ≠ pd.NaN →
  ∃ q, pd.to_numeric_cell parse_number c = pd.Num q.
Proof.
  destruct c as [|s|q]; cbn; [done| |eauto].
  destruct (parse_number s); [eauto|done].
Qed.

Lemma numbers_length (l : list pd.cell) :
  Forall (λ c, ∃ q, c = pd.Num q) l → length (pd.numbers l) = length l.
Proof.
  induction 1 as [|c l [q ->] _ IH]; [done|].
  cbn. unfold pd.numbers in IH. by rewrite IH.
Qed.

Lemma mean_nonempty (l : list pd.cell) :
  pd.numbers l ≠ [] → pd.mean l = pd.Num (arithmetic_mean (pd.numbers l)).
Proof. unfold pd.mean, arithmetic_mean. by destruct (pd.numbers l). Qed.

Lemma get_locs_lookup names cols locs k n p :
  pd.get_locs names cols = Some locs →
  names !! k = Some n → locs !! k = Some p → pd.get_loc n cols = Some p.
Proof.
  intros Hlocs%mapM_Some Hn Hp.
  by apply (Forall2_lookup_lr _ _ _ _ _ _ Hlocs Hn Hp).
Qed.

(** The positions of the seven fields of Task 1, one fact each. *)
Ltac task1_locs Hlocs :=
  pose proof (get_locs_lookup _ _ _ 0 _ _ Hlocs eq_refl eq_refl : pd.get_loc "Q47" _ = _);
  pose proof (get_locs_lookup _ _ _ 1 _ _ Hlocs eq_refl eq_refl : pd.get_loc "Q24_1" _ = _);
  pose proof (get_locs_lookup _ _ _ 2 _ _ Hlocs eq_refl eq_refl : pd.get_loc "Q24_2" _ = _);
  pose proof (get_locs_lookup _ _ _ 3 _ _ Hlocs eq_refl eq_refl : pd.get_loc "Q24_3" _ = _);
  pose proof (get_locs_lookup _ _ _ 4 _ _ Hlocs eq_refl eq_refl : pd.get_loc "Q24_4" _ = _);
  pose proof (get_locs_lookup _ _ _ 5 _ _ Hlocs eq_refl eq_refl : pd.get_loc "Q24_5" _ = _);
  pose proof (get_locs_lookup _ _ _ 6 _ _ Hlocs eq_refl eq_refl : pd.get_loc "Q24_6" _ = _).

Lemma task1_complete_row parse_number dfc p0 p1 p2 p3 p4 p5 p6 r :
  pd.get_locs (col_employment :: keys col_rankings) (pd.columns dfc)
    = Some [p0; p1; p2; p3; p4; p5; p6] →
  Forall pd.notna (task1_row parse_number [p0; p1; p2; p3; p4; p5; p6] r).2
  ↔ task1_complete parse_number dfc r.
Proof.
  intros Hlocs. task1_locs Hlocs.
  unfold task1_complete, rank_value, field_of, col_employment.
  cbn [keys col_rankings fmap list_fmap fst].
  rewrite !Forall_cons, !Forall_nil.
  repeat match goal with H : pd.get_loc _ _ = Some _ |- _ => rewrite H; clear H end.
  cbn [task1_row snd fmap list_fmap].
  rewrite !Forall_cons, !Forall_nil. unfold pd.notna. tauto.
Qed.

Lemma filter_Forall_id {A} (P : A → Prop) `{∀ x, Decision (P x)} (l : list A) :
  Forall P l → filter P l = l.
Proof.
  induction 1 as [|x l Hx _ IH]; [done|].
  by rewrite filter_cons, decide_True, IH.
Qed.

Lemma nonempty_elem {A} (l : list A) : l ≠ [] → ∃ x, x ∈ l.
Proof. destruct l as [|x l]; [done|]. exists x. left. Qed.

Lemma get_locs_of_columns names cols :
  (∀ c, c ∈ names → c ∈ cols) →
  ∃ locs, pd.get_locs names cols = Some locs ∧ length locs = length names.
Proof.
  intros Hin. destruct (pd.get_locs names cols) as [locs|] eqn:E.
  - exists locs. split; [done|]. symmetry. by eapply length_mapM.
  - apply mapM_None in E. apply Exists_exists in E as (c & Hc & E).
    apply get_loc_None in E. destruct E. by apply Hin.
Qed.

Section task1.

Variable parse_number : string → option Qc.
Variable dfc : pd.DataFrame.
Variable locs : list nat.
Hypothesis Hlocs :
  pd.get_locs (col_employment :: keys col_rankings) (pd.columns dfc) = Some locs.

Lemma task1_row_employment r :
  pd.cell_at 0 (task1_row parse_number locs r).2 = field_of dfc col_employment r.
Proof.
  pose proof (length_mapM _ _ _ Hlocs) as Hlen.
  destruct locs as [|p0 ps]; [done|].
  unfold field_of.
  by rewrite (get_locs_lookup _ _ _ 0 _ _ Hlocs eq_refl eq_refl).
Qed.

Lemma task1_row_rank r k col :
  keys col_rankings !! k = Some col →
  pd.cell_at (S k) (task1_row parse_number locs r).2 = rank_value parse_number dfc col r.
Proof.
  intros Hk.
  pose proof (length_mapM _ _ _ Hlocs) as Hlen.
  destruct locs as [|p0 ps] eqn:E; [done|].
  destruct (ps !! k) as [p|] eqn:Hp.
  - unfold rank_value, field_of.
    rewrite (get_locs_lookup _ _ _ (S k) col p Hlocs) by done.
    cbn [task1_row snd]. unfold pd.cell_at at 1. rewrite lookup_cons.
    by rewrite list_lookup_fmap, Hp.
  - apply lookup_ge_None in Hp. apply lookup_lt_Some in Hk.
    cbn in Hlen, Hk. lia.
Qed.

Lemma task1_employment_column (rs : list (nat * list pd.cell)) :
  Forall (task1_complete parse_number dfc) rs →
  filter pd.notna ((λ r, pd.cell_at 0 r.2) <$> (task1_row parse_number locs <$> rs))
  = field_of dfc col_employment <$> rs.
Proof.
  intros Hrs. rewrite <- list_fmap_compose.
  rewrite (list_fmap_ext _ (field_of dfc col_employment) rs)
    by (intros _ r _; apply task1_row_employment).
  apply filter_Forall_id, Forall_fmap. eapply Forall_impl; [exact Hrs|].
  by intros r [He _].
Qed.

Lemma task1_group_column g k col :
  keys col_rankings !! k = Some col →
  (λ r, pd.cell_at (S k) r.2) <$>
    filter (λ r, pd.cell_at 0 r.2 = g)
      (task1_row parse_number locs <$> filter (task1_complete parse_number dfc) (pd.rows dfc))
  = rank_value parse_number dfc col <$> group_rows parse_number dfc g.
Proof.
  intros Hk. rewrite filter_fmap_comm, <- list_fmap_compose, list_filter_filter.
  unfold group_rows.
  rewrite (list_filter_iff _ (λ r, task1_complete parse_number dfc r
                                   ∧ field_of dfc col_employment r = g))
    by (intros r; rewrite task1_row_employment; tauto).
  apply list_fmap_ext. intros _ r _. by apply task1_row_rank.
Qed.

Lemma group_ranks_length g col :
  col ∈ keys col_rankings →
  length (group_ranks parse_number dfc g col) = length (group_rows parse_number dfc g).
Proof.
  intros Hcol. unfold group_ranks. rewrite numbers_length, length_fmap; [done|].
  apply Forall_fmap, Forall_forall. intros r [[[_ Hr] _] _]%list_elem_of_filter.
  apply to_numeric_cell_notna. rewrite Forall_forall in Hr. by apply Hr.
Qed.

End task1.

(** C1: for a cleaned table that has the seven fields, the frame of
    Task 1 and the table of means exist; the table has the six ranking
    labels as columns and one row per employment value g that occurs in a
    complete row (a row in which the employment field and the coerced
    value of every ranking field are present); in the row of g the entry
    of a ranking field is the arithmetic mean of the coerced values of
    that field over exactly the complete rows whose employment field is g,
    of which there is at least one and each of which contributes one
    number. *)
Theorem task1_mean_ranks (parse_number : string → option Qc) (dfc : pd.DataFrame) :
  (∀ c, c ∈ col_employment :: keys col_rankings → c ∈ pd.columns dfc) →
  ∃ t1 T,
    task1_df parse_number dfc = Ok t1 ∧ task1_means t1 = Ok T
    ∧ pd.tcolumns T = pd.Str <$> dict_values col_rankings
    ∧ NoDup (pd.tindex T)
    ∧ (∀ g, g ∈ pd.tindex T ↔ group_rows parse_number dfc g ≠ [])
    ∧ length (pd.tvalues T) = length (pd.tindex T)
    ∧ ∀ i g, pd.tindex T !! i = Some g →
        ∃ row,
          pd.tvalues T !! i = Some row
          ∧ length row = 6%nat
          ∧ ∀ j col label, col_rankings !! j = Some (col, label) →
              length (group_ranks parse_number dfc g col)
                = length (group_rows parse_number dfc g)
              ∧ (0 < length (group_rows parse_number dfc g))%nat
              ∧ row !! j =
                  Some (pd.Num (arithmetic_mean (group_ranks parse_number dfc g col))).
Proof.
  intros Hcols.
  destruct (get_locs_of_columns _ _ Hcols) as (locs & Hlocs & Hlen).
  destruct locs as [|p0 [|p1 [|p2 [|p3 [|p4 [|p5 [|p6 [|]]]]]]]]; try done.
  set (rs := filter (task1_complete parse_number dfc) (pd.rows dfc)).
  assert (filter (λ r : nat * list pd.cell, Forall pd.notna r.2)
            (task1_row parse_number [p0; p1; p2; p3; p4; p5; p6] <$> pd.rows dfc)
          = task1_row parse_number [p0; p1; p2; p3; p4; p5; p6] <$> rs) as Hrows.
  { rewrite filter_fmap_comm. f_equal. apply list_filter_iff.
    intros r. by apply task1_complete_row. }
  assert (Forall (task1_complete parse_number dfc) rs) as Hrs.
  { apply Forall_forall. by intros r [? _]%list_elem_of_filter. }
  assert (∀ g, g ∈ field_of dfc col_employment <$> rs
               ↔ group_rows parse_number dfc g ≠ []) as Hgroups.
  { intros g. rewrite list_elem_of_fmap. unfold group_rows. split.
    - intros (r & -> & [Hc Hr]%list_elem_of_filter) E.
      assert (r ∈ filter (λ r', task1_complete parse_number dfc r'
                                ∧ field_of dfc col_employment r'
                                  = field_of dfc col_employment r) (pd.rows dfc)) as Hin
        by (by apply list_elem_of_filter).
      rewrite E in Hin. by apply elem_of_nil in Hin.
    - intros (r & Hin)%nonempty_elem.
      apply list_elem_of_filter in Hin as [[Hc <-] Hr].
      exists r. split; [done|]. by apply list_elem_of_filter. }
  eexists _, _. split; [by apply task1_df_rows|]. rewrite Hrows.
  split; [apply task1_means_frame|]. cbn [pd.tcolumns pd.tindex pd.tvalues].
  rewrite (task1_employment_column parse_number dfc _ Hlocs rs Hrs).
  split; [done|]. split; [apply NoDup_sorted_unique|].
  split; [intros g; by rewrite elem_of_sorted_unique|].
  split; [by rewrite length_fmap|].
  intros i g Hg. eexists. split; [by rewrite list_lookup_fmap, Hg|].
  split; [done|]. intros j col label Hj.
  assert (keys col_rankings !! j = Some col) as Hkey
    by (unfold keys; by rewrite list_lookup_fmap, Hj).
  assert (j < 6)%nat as Hj6 by (by apply lookup_lt_Some in Hj).
  assert (0 < length (group_rows parse_number dfc g))%nat as Hpos.
  { apply list_elem_of_lookup_2, elem_of_sorted_unique, Hgroups in Hg.
    destruct (group_rows parse_number dfc g); [done|cbn; lia]. }
  pose proof (group_ranks_length parse_number dfc g col
                (list_elem_of_lookup_2 _ _ _ Hkey)) as Hnum.
  split; [done|]. split; [done|].
  change [1; 2; 3; 4; 5; 6]%nat with (seq 1 6).
  rewrite list_lookup_fmap, lookup_seq_lt by done. cbn [fmap option_fmap option_map].
  change (1 + j)%nat with (S j). f_equal. unfold rs.
  rewrite (task1_group_column parse_number dfc _ Hlocs g j col Hkey).
  apply mean_nonempty. fold (group_ranks parse_number dfc g col).
  intros E. rewrite E in Hnum. cbn in Hnum. lia.
Qed.

(** ** Runs of the script *)

Lemma string_app_assoc (s t u : string) : (s +:+ t) +:+ u = s +:+ (t +:+ u).
Proof.
  induction s as [|a s IH]; [done|].
  change (String a ((s +:+ t) +:+ u) = String a (s +:+ (t +:+ u))). by rewrite IH.
Qed.

Lemma bind_Ok {A B} (m : M A) (f : A → M B) w a w' :
  m w = (Ok a, w') → (m ≫= f) w = f a w'.
Proof. intros E. unfold mbind, M_bind. by rewrite E. Qed.

Lemma bind_Raise {A B} (m : M A) (f : A → M B) w e w' :
  m w = (Raise e, w') → (m ≫= f) w = (Raise e, w').
Proof. intros E. unfold mbind, M_bind. by rewrite E. Qed.

Lemma bind_Ok_inv {A B} (m : M A) (f : A → M B) w b w' :
  (m ≫= f) w = (Ok b, w') → ∃ a w1, m w = (Ok a, w1) ∧ f a w1 = (Ok b, w').
Proof.
  unfold mbind, M_bind. destruct (m w) as [[a|e] w1]; [eauto|done].
Qed.

Lemma lift_Ok_inv {A} (r : result A) w a w' :
  lift r w = (Ok a, w') → r = Ok a ∧ w' = w.
Proof. unfold lift. by intros [= -> ->]. Qed.

(** ** Runs depend on the input file alone *)

Lemma extend_nil w : extend w [] [] = w.
Proof. destruct w. unfold extend. cbn. by rewrite app_nil_r. Qed.

Lemma extend_extend w l1 ws1 l2 ws2 :
  extend (extend w l1 ws1) l2 ws2 = extend w (l1 ++ l2) (ws1 ++ ws2).
Proof. unfold extend. cbn. by rewrite foldl_app, (assoc_L (++)). Qed.

Lemma lookup_writes (m : gmap string string) writes k :
  foldl (λ m kv, <[kv.1 := kv.2]> m) m writes !! k =
    match last_write k writes with Some v => Some v | None => m !! k end.
Proof.
  revert m. induction writes as [|kv writes IH]; intros m; [done|].
  cbn [foldl last_write]. rewrite IH.
  destruct (last_write k writes); [done|].
  rewrite lookup_insert. destruct (decide (kv.1 = k)) as [->|Hne].
  - by rewrite decide_True.
  - by rewrite decide_False.
Qed.

Lemma last_write_avoids k writes :
  Forall (λ kv : string * string, kv.1 ≠ k) writes → last_write k writes = None.
Proof.
  induction 1 as [|kv writes Hk _ IH]; [done|].
  cbn. rewrite IH. by rewrite decide_False.
Qed.

Lemma extend_input w lines writes :
  Forall (λ kv : string * string, kv.1 ≠ input_csv) writes →
  files (extend w lines writes) !! input_csv = files w !! input_csv.
Proof. intros H. cbn. by rewrite lookup_writes, last_write_avoids. Qed.

Lemma extend_twice w l1 l2 writes :
  files (extend (extend w l1 writes) l2 writes) = files (extend w l1 writes).
Proof.
  apply map_eq. intros k. cbn. rewrite !lookup_writes.
  by destruct (last_write k writes).
Qed.

Lemma uniform_lift {A} (r : result A) : uniform (lift r).
Proof.
  intros w w' _. exists r, [], []. by rewrite !extend_nil.
Qed.

Lemma uniform_ret {A} (a : A) : uniform (mret a).
Proof. apply (uniform_lift (Ok a)). Qed.

Lemma uniform_print line : uniform (print line).
Proof. intros w w' _. by exists (Ok ()), [line], []. Qed.

Lemma uniform_write_file path content :
  path ≠ input_csv → uniform (write_file path content).
Proof.
  intros Hne w w' _. exists (Ok ()), [], [(path, content)].
  split; [by repeat constructor|].
  unfold write_file, extend. cbn. by rewrite !app_nil_r.
Qed.

Lemma uniform_bind {A B} (m : M A) (f : A → M B) :
  uniform m → (∀ a, uniform (f a)) → uniform (m ≫= f).
Proof.
  intros Hm Hf w w' Hin.
  destruct (Hm w w' Hin) as (r & l1 & ws1 & Hws1 & E & E').
  unfold mbind, M_bind. rewrite E, E'. destruct r as [a|e].
  - destruct (Hf a (extend w l1 ws1) (extend w' l1 ws1))
      as (r & l2 & ws2 & Hws2 & F & F').
    { by rewrite !extend_input. }
    exists r, (l1 ++ l2), (ws1 ++ ws2). rewrite F, F', !extend_extend.
    split; [by apply Forall_app|done].
  - by exists (Raise e), l1, ws1.
Qed.

Lemma uniform_try_except {A} (body handler : M A) :
  uniform body → uniform handler →
  uniform (try_except_FileNotFoundError body handler).
Proof.
  intros Hb Hh w w' Hin.
  destruct (Hb w w' Hin) as (r & l1 & ws1 & Hws1 & E & E').
  unfold try_except_FileNotFoundError. rewrite E, E'.
  assert (∃ r' lines writes,
            Forall (λ kv : string * string, kv.1 ≠ input_csv) writes
            ∧ handler (extend w l1 ws1) = (r', extend w lines writes)
            ∧ handler (extend w' l1 ws1) = (r', extend w' lines writes)) as Hhandler.
  { destruct (Hh (extend w l1 ws1) (extend w' l1 ws1))
      as (r' & l2 & ws2 & Hws2 & F & F').
    { by rewrite !extend_input. }
    exists r', (l1 ++ l2), (ws1 ++ ws2). rewrite F, F', !extend_extend.
    split; [by apply Forall_app|done]. }
  destruct r as [a|[]]; try (by exists (Raise FileNotFoundError), l1, ws1);
    first [exact Hhandler | eexists _, l1, ws1; done].
Qed.

Section runs.

Variable parse_csv : string → result (list string * list (list pd.cell)).
Variable parse_number : string → option Qc.
Variable barplot : pd.DataFrame → result string.
Variable barh_stacked : pd.Table → result string.
Variable to_csv : pd.Table → string.

Local Abbreviation run := (main parse_csv parse_number barplot barh_stacked to_csv).

Lemma write_summary_run T1 T2 w :
  write_summary to_csv T1 T2 w =
    (Ok (), {| files := <["results_summary.csv" := summary_text to_csv T1 T2]> (files w);
               stdout := stdout w |}).
Proof.
  unfold write_summary, open_w, write_file, fwrite, mbind, M_bind, summary_text.
  cbn [files stdout]. rewrite !alter_insert_eq.
  by rewrite !string_app_assoc.
Qed.

Lemma read_csv_run w :
  pd.read_csv parse_csv input_csv w =
    match files w !! input_csv with
    | None => (Raise FileNotFoundError, w)
    | Some text =>
        match parse_csv text with
        | Ok parsed => (Ok (pd.frame_of parsed), w)
        | Raise e => (Raise e, w)
        end
    end.
Proof.
  unfold pd.read_csv, read_text, mbind, M_bind, lift.
  destruct (files w !! input_csv) as [text|]; [|done].
  by destruct (parse_csv text).
Qed.

Lemma run_missing w :
  files w !! input_csv = None →
  run w = (Raise (SystemExit 1),
           {| files := files w; stdout := stdout w ++ ["Error: CSV file not found."] |}).
Proof.
  intros Hnone. unfold run, main.
  apply bind_Raise. unfold try_except_FileNotFoundError.
  by rewrite read_csv_run, Hnone.
Qed.

Lemma employment_present dfc t1 :
  task1_df parse_number dfc = Ok t1 → col_employment ∈ pd.columns dfc.
Proof.
  unfold task1_df, pd.getitem_list. rewrite get_locs_cons.
  destruct (pd.get_loc col_employment (pd.columns dfc)) as [p|] eqn:E; [|done].
  intros _. apply get_loc_is_Some. eauto.
Qed.

Lemma run_success w text parsed t1 T1 long png1 T2 png2 :
  files w !! input_csv = Some text →
  parse_csv text = Ok parsed →
  task1_df parse_number (df_clean (pd.frame_of parsed)) = Ok t1 →
  task1_means t1 = Ok T1 →
  task1_melted t1 = Ok long →
  barplot long = Ok png1 →
  task2_table (df_clean (pd.frame_of parsed)) = Ok T2 →
  barh_stacked T2 = Ok png2 →
  run w = (Ok (), success_world to_csv w png1 png2 T1 T2).
Proof.
  intros Hfile Hparse Ht1 HT1 Hlong Hpng1 HT2 Hpng2. unfold run, main.
  erewrite bind_Ok;
    [|unfold try_except_FileNotFoundError; by rewrite read_csv_run, Hfile, Hparse].
  pose proof (employment_present _ _ Ht1) as Hemp.
  unfold task2_table in HT2.
  destruct (task2_df (df_clean (pd.frame_of parsed))) as [t2|] eqn:Ht2; [|done].
  cbn [mbind result_bind] in HT2.
  destruct (task2_crosstab t2) as [X|] eqn:HX; [|done].
  cbn [mbind result_bind] in HT2.
  unfold mbind, M_bind, print, lift, write_file. cbn [files stdout].
  rewrite decide_False by (by intros []).
  cbn [mret M_ret]. rewrite Ht1, HT1, Hlong, Hpng1, ?Ht2, HX, HT2, Hpng2.
  rewrite write_summary_run. cbn [files stdout]. unfold success_world, success_lines.
  by rewrite <- !(assoc_L (++)).
Qed.

Lemma bind_print {B} line (f : unit → M B) w :
  (print line ≫= f) w = f () {| files := files w; stdout := stdout w ++ [line] |}.
Proof. reflexivity. Qed.

Lemma bind_write_file {B} path content (f : unit → M B) w :
  (write_file path content ≫= f) w
  = f () {| files := <[path := content]> (files w); stdout := stdout w |}.
Proof. reflexivity. Qed.

Lemma run_success_inv w w' :
  run w = (Ok (), w') →
  ∃ text parsed t1 T1 long png1 T2 png2,
    files w !! input_csv = Some text
    ∧ parse_csv text = Ok parsed
    ∧ task1_df parse_number (df_clean (pd.frame_of parsed)) = Ok t1
    ∧ task1_means t1 = Ok T1
    ∧ task1_melted t1 = Ok long
    ∧ barplot long = Ok png1
    ∧ task2_table (df_clean (pd.frame_of parsed)) = Ok T2
    ∧ barh_stacked T2 = Ok png2
    ∧ w' = success_world to_csv w png1 png2 T1 T2.
Proof.
  intros Hrun. pose proof Hrun as H. unfold run, main in H.
  apply bind_Ok_inv in H as (df & w1 & Hread & H).
  unfold try_except_FileNotFoundError in Hread. rewrite read_csv_run in Hread.
  destruct (files w !! input_csv) as [text|] eqn:Hfile; [|done].
  destruct (parse_csv text) as [parsed|e] eqn:Hparse; [|by destruct e].
  injection Hread as <- <-.
  rewrite bind_print in H.
  apply bind_Ok_inv in H as ([] & w2 & _ & H).
  apply bind_Ok_inv in H as (t1 & ? & [Ht1 ->]%lift_Ok_inv & H).
  apply bind_Ok_inv in H as (T1 & ? & [HT1 ->]%lift_Ok_inv & H).
  apply bind_Ok_inv in H as (long & ? & [Hlong ->]%lift_Ok_inv & H).
  apply bind_Ok_inv in H as (png1 & ? & [Hpng1 ->]%lift_Ok_inv & H).
  rewrite bind_write_file, !bind_print in H.
  apply bind_Ok_inv in H as (t2 & ? & [Ht2 ->]%lift_Ok_inv & H).
  apply bind_Ok_inv in H as (X & ? & [HX ->]%lift_Ok_inv & H).
  apply bind_Ok_inv in H as (T2 & ? & [HT2 ->]%lift_Ok_inv & H).
  apply bind_Ok_inv in H as (png2 & ? & [Hpng2 ->]%lift_Ok_inv & _).
  assert (task2_table (df_clean (pd.frame_of parsed)) = Ok T2) as Htable.
  { unfold task2_table. rewrite Ht2. cbn [mbind result_bind]. rewrite HX. exact HT2. }
  exists text, parsed, t1, T1, long, png1, T2, png2.
  repeat (split; [done|]).
  rewrite (run_success w text parsed t1 T1 long png1 T2 png2) in Hrun by done.
  by injection Hrun.
Qed.

Lemma input_untouched (m : gmap string string) (summary png1 png2 : string) :
  (<["results_summary.csv" := summary]>
     (<["task2_earnings.png" := png2]>
        (<["task1_priorities.png" := png1]> m))) !! input_csv
  = m !! input_csv.
Proof. by rewrite !lookup_insert_ne. Qed.

(** C6: a run that succeeds has read the input, computed the two tables,
    and leaves as summary file exactly the header of Task 1, the
    mean-rank table as delimited text, a blank line, the header of
    Task 2 and the percentage table as delimited text, in this order;
    what the file held before plays no part: started with any old
    content in the summary file, the run succeeds with the same text. *)
Theorem summary_written (w w' : World) :
  run w = (Ok (), w') →
  ∃ text parsed t1 T1 T2,
    files w !! input_csv = Some text
    ∧ parse_csv text = Ok parsed
    ∧ task1_df parse_number (df_clean (pd.frame_of parsed)) = Ok t1
    ∧ task1_means t1 = Ok T1
    ∧ task2_table (df_clean (pd.frame_of parsed)) = Ok T2
    ∧ files w' !! "results_summary.csv" =
        Some (task1_header +:+ to_csv T1 +:+ newline +:+ task2_header +:+ to_csv T2)
    ∧ ∀ old : string,
        let w_old := {| files := <["results_summary.csv" := old]> (files w);
                        stdout := stdout w |} in
        (run w_old).1 = Ok ()
        ∧ files (run w_old).2 !! "results_summary.csv" =
            Some (task1_header +:+ to_csv T1 +:+ newline +:+ task2_header +:+ to_csv T2).
Proof.
  intros (text & parsed & t1 & T1 & long & png1 & T2 & png2 & Hfile & Hparse & Ht1
          & HT1 & Hlong & Hpng1 & HT2 & Hpng2 & ->)%run_success_inv.
  exists text, parsed, t1, T1, T2. repeat (split; [done|]).
  split; [apply lookup_insert_eq|].
  intros old w_old.
  rewrite (run_success w_old text parsed t1 T1 long png1 T2 png2); try done.
  - split; [done|]. apply lookup_insert_eq.
  - unfold w_old. cbn [files]. by rewrite lookup_insert_ne.
Qed.

(** C7: when the input file does not exist the run prints the one line
    "Error: CSV file not found.", changes no file and ends by
    [SystemExit 1], not by the [FileNotFoundError]: the exit status is 1,
    not zero; a run that succeeds had the input file and exits with
    status 0. *)
Theorem missing_input_exit (w : World) :
  (files w !! input_csv = None →
     run w = (Raise (SystemExit 1),
              {| files := files w;
                 stdout := stdout w ++ ["Error: CSV file not found."] |})
     ∧ (run w).1 ≠ Raise FileNotFoundError
     ∧ exit_status (run w).1 = 1%Z
     ∧ exit_status (run w).1 ≠ 0%Z)
  ∧ (∀ w', run w = (Ok (), w') →
       is_Some (files w !! input_csv) ∧ exit_status (run w).1 = 0%Z).
Proof.
  split.
  - intros Hnone. rewrite (run_missing w Hnone). by cbn.
  - intros w' Hrun. rewrite Hrun. split; [|done].
    apply run_success_inv in Hrun as (text & ? & ? & ? & ? & ? & ? & ? & -> & _). eauto.
Qed.

Lemma uniform_read_csv : uniform (pd.read_csv parse_csv input_csv).
Proof.
  intros w w' Hin. rewrite !read_csv_run, <- Hin.
  destruct (files w !! input_csv) as [text|].
  - destruct (parse_csv text) as [parsed|e]; eexists _, [], []; by rewrite !extend_nil.
  - eexists _, [], []. by rewrite !extend_nil.
Qed.

Lemma uniform_write_summary T1 T2 : uniform (write_summary to_csv T1 T2).
Proof.
  intros w w' _.
  exists (Ok ()), [], [("results_summary.csv", summary_text to_csv T1 T2)].
  split; [by repeat constructor|].
  rewrite !write_summary_run. unfold extend. cbn. by rewrite !app_nil_r.
Qed.

Lemma uniform_main : uniform run.
Proof.
  unfold main.
  repeat lazymatch goal with
  | |- uniform (mbind _ _) => apply uniform_bind; [|intros ?]
  | |- uniform (try_except_FileNotFoundError _ _) => apply uniform_try_except
  | |- uniform (pd.read_csv _ _) => apply uniform_read_csv
  | |- uniform (write_summary _ _ _) => apply uniform_write_summary
  | |- uniform (print _) => apply uniform_print
  | |- uniform (lift _) => apply uniform_lift
  | |- uniform (sys_exit _) => apply uniform_lift
  | |- uniform (mret _) => apply uniform_ret
  | |- uniform (write_file _ _) => apply uniform_write_file; done
  | |- uniform (if _ then _ else _) => case_decide
  end.
Qed.

Lemma extend_absorbed (w w1 : World) lines lines' writes :
  files (extend w lines writes) = files w1 →
  files (extend w1 lines' writes) = files w1.
Proof.
  intros E. apply map_eq. intros k.
  assert (files (extend w lines writes) !! k = files w1 !! k) as Ek by (by rewrite E).
  cbn in *. rewrite lookup_writes in *.
  by destruct (last_write k writes).
Qed.

(** C8: what a run does is fixed by the input file alone.  A second
    run, started in the world the first one left, ends as the first one
    did and leaves every file, the summary among them, as the first run
    left it; and a run in any other world with the same input file ends
    the same way and, when that is with success, has written the same
    summary text, whatever else the two worlds hold. *)
Theorem summary_deterministic (w : World) :
  (run (run w).2).1 = (run w).1
  ∧ files (run (run w).2).2 = files (run w).2
  ∧ files (run (run w).2).2 !! "results_summary.csv"
    = files (run w).2 !! "results_summary.csv"
  ∧ ∀ w2, files w2 !! input_csv = files w !! input_csv →
      (run w2).1 = (run w).1
      ∧ ((run w).1 = Ok () →
         files (run w2).2 !! "results_summary.csv"
         = files (run w).2 !! "results_summary.csv").
Proof.
  destruct (uniform_main w w eq_refl) as (r & lines & writes & Hws & Hrun & _).
  assert ((run (run w).2).1 = (run w).1 ∧ files (run (run w).2).2 = files (run w).2)
    as [Hres Hfiles].
  { rewrite Hrun. cbn [fst snd].
    destruct (uniform_main (extend w lines writes) w)
      as (r' & lines' & writes' & _ & Hrun2 & Hrun1); [by apply extend_input|].
    rewrite Hrun in Hrun1.
    assert (r' = r) as -> by congruence.
    assert (extend w lines' writes' = extend w lines writes) as Hw by congruence.
    rewrite Hrun2. cbn [fst snd]. split; [done|].
    apply (extend_absorbed w _ lines'). by rewrite Hw. }
  split; [exact Hres|]. split; [exact Hfiles|]. split; [by rewrite Hfiles|].
  intros w2 Hsame.
  destruct (uniform_main w2 w Hsame) as (r2 & l2 & ws2 & _ & Hrun2 & Hrun1).
  split; [by rewrite Hrun2, Hrun1|].
  intros Hok. destruct (run w) as [r1 w1] eqn:Hw. cbn [fst snd] in *.
  rewrite Hok in Hw. apply run_success_inv in Hw
    as (text & parsed & t1 & T1 & long & png1 & T2 & png2 & Hfile & Hparse & Ht1
        & HT1 & Hlong & Hpng1 & HT2 & Hpng2 & ->).
  rewrite (run_success w2 text parsed t1 T1 long png1 T2 png2); try done.
  - cbn [snd success_world files]. by rewrite !lookup_insert_eq.
  - by rewrite Hsame.
Qed.

End runs.
(** ** Absent columns (lines 41-47 and 93) *)

Section absent_columns.

Variable parse_csv : string → result (list string * list (list pd.cell)).
Variable parse_number : string → option Qc.
Variable barplot : pd.DataFrame → result string.
Variable barh_stacked : pd.Table → result string.
Variable to_csv : pd.Table → string.

Local Abbreviation run := (main parse_csv parse_number barplot barh_stacked to_csv).

Lemma task1_df_KeyError dfc :
  pd.get_locs (col_employment :: keys col_rankings) (pd.columns dfc) = None →
  task1_df parse_number dfc =
    Raise (KeyError (pd.missing_labels (col_employment :: keys col_rankings)
                       (pd.columns dfc))).
Proof. intros E. unfold task1_df, pd.getitem_list. by rewrite E. Qed.

(** Without the employment field the warning is printed, nothing is
    done about it, and the selection of line 47 raises. *)
Lemma run_employment_missing w text parsed :
  files w !! input_csv = Some text →
  parse_csv text = Ok parsed →
  col_employment ∉ pd.columns (pd.frame_of parsed) →
  run w =
    (Raise (KeyError (pd.missing_labels (col_employment :: keys col_rankings)
                        (pd.columns (pd.frame_of parsed)))),
     {| files := files w; stdout := stdout w ++ ["Starting Task 1..."; warning] |}).
Proof.
  intros Hfile Hparse Hemp. unfold main.
  erewrite bind_Ok;
    [|unfold try_except_FileNotFoundError; by rewrite read_csv_run, Hfile, Hparse].
  rewrite bind_print.
  erewrite bind_Ok; [|by rewrite decide_True by done].
  cbn [files stdout]. rewrite <- (assoc_L (++)).
  apply bind_Raise. rewrite task1_df_KeyError; [done|].
  change (pd.columns (df_clean (pd.frame_of parsed))) with (pd.columns (pd.frame_of parsed)).
  rewrite get_locs_cons. by apply get_loc_None in Hemp as ->.
Qed.

(** Without one of the ranking fields nothing is printed about it: the
    selection of line 47 raises right after the first progress line. *)
Lemma run_ranking_missing w text parsed c :
  files w !! input_csv = Some text →
  parse_csv text = Ok parsed →
  col_employment ∈ pd.columns (pd.frame_of parsed) →
  c ∈ keys col_rankings → c ∉ pd.columns (pd.frame_of parsed) →
  run w =
    (Raise (KeyError (pd.missing_labels (col_employment :: keys col_rankings)
                        (pd.columns (pd.frame_of parsed)))),
     {| files := files w; stdout := stdout w ++ ["Starting Task 1..."] |}).
Proof.
  intros Hfile Hparse Hemp Hc Hmiss. unfold main.
  erewrite bind_Ok;
    [|unfold try_except_FileNotFoundError; by rewrite read_csv_run, Hfile, Hparse].
  rewrite bind_print.
  erewrite bind_Ok; [|by rewrite decide_False by (by intros [])].
  apply bind_Raise. rewrite task1_df_KeyError; [done|].
  apply mapM_None, Exists_exists. exists c. split; [by right|].
  by apply get_loc_None.
Qed.

(** Without the program-type or the earnings field nothing is printed
    about it either: Task 1 is carried out, its chart saved, and the
    selection of line 93 raises. *)
Lemma run_task2_column_missing w text parsed t1 T1 long png1 :
  files w !! input_csv = Some text →
  parse_csv text = Ok parsed →
  task1_df parse_number (df_clean (pd.frame_of parsed)) = Ok t1 →
  task1_means t1 = Ok T1 →
  task1_melted t1 = Ok long →
  barplot long = Ok png1 →
  pd.get_locs [col_program; col_earnings] (pd.columns (pd.frame_of parsed)) = None →
  run w =
    (Raise (KeyError (pd.missing_labels [col_program; col_earnings]
                        (pd.columns (pd.frame_of parsed)))),
     {| files := <["task1_priorities.png" := png1]> (files w);
        stdout := stdout w ++ [ "Starting Task 1...";
                                "Task 1 completed. Saved task1_priorities.png";
                                "Starting Task 2..." ] |}).
Proof.
  intros Hfile Hparse Ht1 HT1 Hlong Hpng1 Hmiss. unfold main.
  erewrite bind_Ok;
    [|unfold try_except_FileNotFoundError; by rewrite read_csv_run, Hfile, Hparse].
  pose proof (employment_present _ _ _ Ht1) as Hemp.
  rewrite bind_print.
  erewrite bind_Ok; [|by rewrite decide_False by (by intros [])].
  unfold mbind, M_bind, print, lift, write_file. cbn [files stdout].
  rewrite Ht1, HT1, Hlong, Hpng1.
  unfold task2_df, pd.getitem_list.
  change (pd.columns (df_clean (pd.frame_of parsed))) with (pd.columns (pd.frame_of parsed)).
  rewrite Hmiss. cbn [mbind result_bind]. by rewrite <- !(assoc_L (++)).
Qed.

End absent_columns.

(** C9 fails on the code: the presence of a column is looked at for the
    employment field only.  On an export without the program-type field
    the run prints no warning and ends at line 93 with [KeyError] after
    Task 1 is done; on an export without a ranking field it prints no
    warning and ends at line 47; only without the employment field does
    it print the warning, and then it ends at line 47 all the same. *)
Theorem missing_column_not_detected :
  (sample.main (world_with csv_without_program)).1 = Raise (KeyError ["Q58"])
  ∧ stdout (sample.main (world_with csv_without_program)).2 =
      [ "Starting Task 1...";
        "Task 1 completed. Saved task1_priorities.png";
        "Starting Task 2..." ]
  ∧ (sample.main (world_with csv_without_ranking)).1 = Raise (KeyError ["Q24_3"])
  ∧ stdout (sample.main (world_with csv_without_ranking)).2 = ["Starting Task 1..."]
  ∧ (sample.main (world_with csv_without_employment)).1 = Raise (KeyError ["Q47"])
  ∧ stdout (sample.main (world_with csv_without_employment)).2 =
      ["Starting Task 1..."; warning].
Proof. repeat split; vm_compute; reflexivity. Qed.

(** ** Example runs *)

(** The summary of the sample export: two complete rows per employment
    value, one respondent per cell of the percentage table. *)
Example sample_run_summary :
  files (sample.main (world_with sample_csv)).2 !! "results_summary.csv" =
    Some (csv_lines
            [ "Task 1: Mean Ranks by Employment Status (Lower = Higher Priority)";
              "Work in CPA Firm,CPA Exam Preparation,Networking Opportunities,"
                +:+ "Interaction with Experienced Faculty,Technical Accounting Skills,"
                +:+ "Soft Skill Development,Internship and Recruitment Opportunities";
              "No,3/2,3/2,3,4,11/2,11/2";
              "Yes,3/2,3/2,7/2,7/2,5,6";
              "";
              "Task 2: Percentage Belief in Higher Lifetime Earnings by Program Type";
              "Program Type,Definitely yes,Probably not,Unsure";
              "MAcc,50,50,0";
              "MBA,0,50,50" ]).
Proof. vm_compute. reflexivity. Qed.

Lemma sample_columns (names : list string) :
  Forall (λ c, c ∈ pd.columns sample_clean) names →
  ∀ c, c ∈ names → c ∈ pd.columns sample_clean.
Proof. intros H. by apply Forall_forall. Qed.

Lemma task1_mean_ranks_witness :
  (∀ c, c ∈ col_employment :: keys col_rankings → c ∈ pd.columns sample_clean)
  ∧ ∃ t1 T,
      task1_df sample.parse_number sample_clean = Ok t1 ∧ task1_means t1 = Ok T
      ∧ NoDup (pd.tindex T).
Proof.
  assert (∀ c, c ∈ col_employment :: keys col_rankings → c ∈ pd.columns sample_clean) as H.
  { apply sample_columns, (bool_decide_unpack _). vm_compute. exact I. }
  split; [exact H|].
  destruct (task1_mean_ranks sample.parse_number sample_clean H)
    as (t1 & T & Ht1 & HT & _ & Hnd & _).
  exists t1, T. split; [exact Ht1|]. split; [exact HT|exact Hnd].
Defined.


Lemma task2_program_types_witness :
  col_program ∈ pd.columns sample_clean ∧ col_earnings ∈ pd.columns sample_clean
  ∧ Exists (λ r, task2_retained sample_clean r
                 ∧ field_of sample_clean col_program r = pd.Str "MAcc")
      (pd.rows sample_clean)
  ∧ Exists (λ r, task2_retained sample_clean r
                 ∧ field_of sample_clean col_program r = pd.Str "MBA")
      (pd.rows sample_clean)
  ∧ ∃ T, task2_table sample_clean = Ok T
         ∧ pd.tindex T = [pd.Str "MAcc"; pd.Str "MBA"]
         ∧ length (pd.tvalues T) = 2%nat.
Proof.
  assert (col_program ∈ pd.columns sample_clean) as H1
    by (apply (bool_decide_unpack _); vm_compute; exact I).
  assert (col_earnings ∈ pd.columns sample_clean) as H2
    by (apply (bool_decide_unpack _); vm_compute; exact I).
  assert (Exists (λ r, task2_retained sample_clean r
                       ∧ field_of sample_clean col_program r = pd.Str "MAcc")
            (pd.rows sample_clean)) as H3
    by (apply (bool_decide_unpack _); vm_compute; exact I).
  assert (Exists (λ r, task2_retained sample_clean r
                       ∧ field_of sample_clean col_program r = pd.Str "MBA")
            (pd.rows sample_clean)) as H4
    by (apply (bool_decide_unpack _); vm_compute; exact I).
  repeat (split; [assumption|]).
  destruct (task2_program_types sample_clean H1 H2)
    as (t2 & T & _ & HT & _ & _ & _ & _ & Hboth).
  exists T. split; [exact HT|]. exact (Hboth H3 H4).
Defined.

Lemma final_order_permutation_witness :
  ∃ t2 T, task2_df sample_clean = Ok t2 ∧ task2_crosstab t2 = Ok T
          ∧ final_order (pd.tcolumns T) ≡ₚ pd.tcolumns T
          ∧ final_order (pd.tcolumns T) =
              [pd.Str "Definitely yes"; pd.Str "Probably not"; pd.Str "Unsure"].
Proof.
  destruct (task2_df sample_clean) as [t2|] eqn:Ht2;
    [|vm_compute in Ht2; discriminate Ht2].
  destruct (task2_crosstab t2) as [T|] eqn:HT;
    [|injection Ht2 as <-; vm_compute in HT; discriminate HT].
  exists t2, T. split; [reflexivity|]. split; [exact HT|].
  split; [exact (proj1 (final_order_permutation t2 T HT))|].
  injection Ht2 as <-. injection HT as <-. vm_compute. reflexivity.
Defined.

Lemma summary_written_witness :
  sample.main (world_with sample_csv)
    = (Ok (), (sample.main (world_with sample_csv)).2)
  ∧ ∃ T1 T2,
      files (sample.main (world_with sample_csv)).2 !! "results_summary.csv" =
        Some (task1_header +:+ sample.to_csv T1 +:+ newline
              +:+ task2_header +:+ sample.to_csv T2).
Proof.
  assert (sample.main (world_with sample_csv)
          = (Ok (), (sample.main (world_with sample_csv)).2)) as H
    by (vm_compute; reflexivity).
  split; [exact H|].
  destruct (summary_written sample.parse_csv sample.parse_number sample.barplot
              sample.barh_stacked sample.to_csv _ _ H)
    as (_ & _ & _ & T1 & T2 & _ & _ & _ & _ & _ & Hsum & _).
  exists T1, T2. exact Hsum.
Defined.

Lemma missing_input_exit_witness :
  files empty_world !! input_csv = None
  ∧ (sample.main empty_world).1 = Raise (SystemExit 1)
  ∧ stdout (sample.main empty_world).2 = ["Error: CSV file not found."]
  ∧ exit_status (sample.main empty_world).1 = 1%Z
  ∧ sample.main (world_with sample_csv)
      = (Ok (), (sample.main (world_with sample_csv)).2)
  ∧ exit_status (sample.main (world_with sample_csv)).1 = 0%Z.
Proof.
  assert (files empty_world !! input_csv = None) as H by reflexivity.
  assert (sample.main (world_with sample_csv)
          = (Ok (), (sample.main (world_with sample_csv)).2)) as Hok
    by (vm_compute; reflexivity).
  destruct (missing_input_exit sample.parse_csv sample.parse_number sample.barplot
              sample.barh_stacked sample.to_csv empty_world) as [Hmiss _].
  destruct (missing_input_exit sample.parse_csv sample.parse_number sample.barplot
              sample.barh_stacked sample.to_csv (world_with sample_csv)) as [_ Hsucc].
  destruct (Hmiss H) as (Hrun & _ & Hst & _).
  destruct (Hsucc _ Hok) as [_ H0].
  unfold sample.main in *.
  split; [exact H|]. split; [rewrite Hrun; reflexivity|].
  split; [rewrite Hrun; reflexivity|].
  split; [exact Hst|]. split; [exact Hok|exact H0].
Defined.

Lemma summary_deterministic_witness :
  let w1 := world_with sample_csv in
  let w2 := {| files := <["results_summary.csv" := "stale"]> (files w1);
               stdout := ["earlier output"] |} in
  files w2 !! input_csv = files w1 !! input_csv
  ∧ (sample.main w1).1 = Ok ()
  ∧ (sample.main (sample.main w1).2).1 = Ok ()
  ∧ files (sample.main (sample.main w1).2).2 !! "results_summary.csv"
    = files (sample.main w1).2 !! "results_summary.csv"
  ∧ files (sample.main w2).2 !! "results_summary.csv"
    = files (sample.main w1).2 !! "results_summary.csv".
Proof.
  intros w1 w2.
  assert (files w2 !! input_csv = files w1 !! input_csv) as Hsame
    by (vm_compute; reflexivity).
  assert ((sample.main w1).1 = Ok ()) as Hok by (vm_compute; reflexivity).
  destruct (summary_deterministic sample.parse_csv sample.parse_number sample.barplot
              sample.barh_stacked sample.to_csv w1)
    as (Hres & _ & Hsum & Hother).
  destruct (Hother w2 Hsame) as [_ Hsum2].
  split; [exact Hsame|]. split; [exact Hok|].
  split; [exact (eq_trans Hres Hok)|]. split; [exact Hsum|exact (Hsum2 Hok)].
Defined.
(** * Further properties of the script *)

(** ** How far a run gets, and what it leaves behind *)

Lemma bind_lift {A B} (r : result A) (f : A → M B) w :
  (lift r ≫= f) w = match r with Ok a => f a w | Raise e => (Raise e, w) end.
Proof. unfold mbind, M_bind, lift. by destruct r. Qed.

Section run_outcomes.

Variable parse_csv : string → result (list string * list (list pd.cell)).
Variable parse_number : string → option Qc.
Variable barplot : pd.DataFrame → result string.
Variable barh_stacked : pd.Table → result string.
Variable to_csv : pd.Table → string.

Local Abbreviation run := (main parse_csv parse_number barplot barh_stacked to_csv).

Lemma run_after_read w text parsed :
  files w !! input_csv = Some text →
  parse_csv text = Ok parsed →
  run w =
    (lift (task1_df parse_number (df_clean (pd.frame_of parsed))) ≫= λ t1,
     lift (task1_means t1) ≫= λ T1,
     lift (task1_melted t1) ≫= λ long,
     lift (barplot long) ≫= λ png1,
     write_file "task1_priorities.png" png1;;
     print "Task 1 completed. Saved task1_priorities.png";;
     print "Starting Task 2...";;
     lift (task2_df (df_clean (pd.frame_of parsed))) ≫= λ t2,
     lift (task2_crosstab t2) ≫= λ X,
     lift (task2_reordered X) ≫= λ T2,
     lift (barh_stacked T2) ≫= λ png2,
     write_file "task2_earnings.png" png2;;
     print "Task 2 completed. Saved task2_earnings.png";;
     print "Generating summary...";;
     write_summary to_csv T1 T2;;
     print "Summary saved to results_summary.csv")
      {| files := files w;
         stdout := stdout w ++ task1_start_lines (df_clean (pd.frame_of parsed)) |}.
Proof.
  intros Hfile Hparse. unfold main.
  erewrite bind_Ok;
    [|unfold try_except_FileNotFoundError; by rewrite read_csv_run, Hfile, Hparse].
  rewrite bind_print. unfold task1_start_lines.
  case_decide.
  - erewrite bind_Ok; [|reflexivity]. cbn [files stdout]. by rewrite <- (assoc_L (++)).
  - erewrite bind_Ok; [|reflexivity]. done.
Qed.

Lemma run_stage1_fails w text parsed e :
  files w !! input_csv = Some text →
  parse_csv text = Ok parsed →
  task1_stage parse_number barplot (df_clean (pd.frame_of parsed)) = Raise e →
  run w =
    (Raise e,
     {| files := files w;
        stdout := stdout w ++ task1_start_lines (df_clean (pd.frame_of parsed)) |}).
Proof.
  intros Hfile Hparse Hstage. rewrite (run_after_read w text parsed) by done.
  unfold task1_stage in Hstage.
  rewrite bind_lift. destruct (task1_df _ _) as [t1|]; [|by injection Hstage as ->].
  cbn [mbind result_bind] in Hstage.
  rewrite bind_lift. destruct (task1_means t1) as [T1|]; [|by injection Hstage as ->].
  cbn [mbind result_bind] in Hstage.
  rewrite bind_lift. destruct (task1_melted t1) as [long|]; [|by injection Hstage as ->].
  cbn [mbind result_bind] in Hstage.
  rewrite bind_lift. destruct (barplot long) as [png1|]; [|by injection Hstage as ->].
  done.
Qed.

Lemma task1_stage_employment dfc T1 png1 :
  task1_stage parse_number barplot dfc = Ok (T1, png1) →
  task1_start_lines dfc = ["Starting Task 1..."].
Proof.
  unfold task1_stage, task1_start_lines.
  destruct (task1_df parse_number dfc) as [t1|] eqn:Ht1; [|done]. intros _.
  rewrite decide_False; [done|]. intros []. by eapply employment_present.
Qed.

Lemma run_stage2_fails w text parsed T1 png1 e :
  files w !! input_csv = Some text →
  parse_csv text = Ok parsed →
  task1_stage parse_number barplot (df_clean (pd.frame_of parsed)) = Ok (T1, png1) →
  task2_stage barh_stacked (df_clean (pd.frame_of parsed)) = Raise e →
  run w =
    (Raise e,
     {| files := <["task1_priorities.png" := png1]> (files w);
        stdout := stdout w ++ [ "Starting Task 1...";
                                "Task 1 completed. Saved task1_priorities.png";
                                "Starting Task 2..." ] |}).
Proof.
  intros Hfile Hparse Hstage1 Hstage2. rewrite (run_after_read w text parsed) by done.
  rewrite (task1_stage_employment _ _ _ Hstage1).
  unfold task1_stage in Hstage1. unfold task2_stage, task2_table in Hstage2.
  rewrite bind_lift. destruct (task1_df _ _) as [t1|]; [|done].
  cbn [mbind result_bind] in Hstage1.
  rewrite bind_lift. destruct (task1_means t1) as [T1'|]; [|done].
  cbn [mbind result_bind] in Hstage1.
  rewrite bind_lift. destruct (task1_melted t1) as [long|]; [|done].
  cbn [mbind result_bind] in Hstage1.
  rewrite bind_lift. destruct (barplot long) as [png1'|]; [|done].
  injection Hstage1 as -> ->.
  rewrite bind_write_file, !bind_print. cbn [files stdout].
  rewrite <- !(assoc_L (++)). cbn [app].
  rewrite bind_lift. destruct (task2_df _) as [t2|]; [|by injection Hstage2 as ->].
  cbn [mbind result_bind] in Hstage2.
  rewrite bind_lift. destruct (task2_crosstab t2) as [X|]; [|by injection Hstage2 as ->].
  cbn [mbind result_bind] in Hstage2.
  rewrite bind_lift. destruct (task2_reordered X) as [T2|]; [|by injection Hstage2 as ->].
  cbn [mbind result_bind] in Hstage2.
  rewrite bind_lift. destruct (barh_stacked T2) as [png2|]; [|by injection Hstage2 as ->].
  done.
Qed.

Lemma run_stages_succeed w text parsed T1 png1 T2 png2 :
  files w !! input_csv = Some text →
  parse_csv text = Ok parsed →
  task1_stage parse_number barplot (df_clean (pd.frame_of parsed)) = Ok (T1, png1) →
  task2_stage barh_stacked (df_clean (pd.frame_of parsed)) = Ok (T2, png2) →
  run w = (Ok (), success_world to_csv w png1 png2 T1 T2).
Proof.
  intros Hfile Hparse Hstage1 Hstage2.
  unfold task1_stage in Hstage1. unfold task2_stage in Hstage2.
  destruct (task1_df _ _) as [t1|] eqn:Ht1; [|done].
  cbn [mbind result_bind] in Hstage1.
  destruct (task1_means t1) as [T1'|] eqn:HT1; [|done].
  cbn [mbind result_bind] in Hstage1.
  destruct (task1_melted t1) as [long|] eqn:Hlong; [|done].
  cbn [mbind result_bind] in Hstage1.
  destruct (barplot long) as [png1'|] eqn:Hpng1; [|done].
  injection Hstage1 as -> ->.
  destruct (task2_table _) as [T2'|] eqn:HT2; [|done].
  cbn [mbind result_bind] in Hstage2.
  destruct (barh_stacked T2') as [png2'|] eqn:Hpng2; [|done].
  injection Hstage2 as -> ->.
  by eapply run_success.
Qed.

Lemma run_parse_fails w text e :
  files w !! input_csv = Some text →
  parse_csv text = Raise e →
  run w =
    match e with
    | FileNotFoundError =>
        (Raise (SystemExit 1),
         {| files := files w; stdout := stdout w ++ ["Error: CSV file not found."] |})
    | _ => (Raise e, w)
    end.
Proof.
  intros Hfile Hparse. unfold main, mbind, M_bind, try_except_FileNotFoundError.
  rewrite read_csv_run, Hfile, Hparse. by destruct e.
Qed.

Lemma missing_labels_nil names cols :
  pd.missing_labels names cols = [] ↔ ∀ c, c ∈ names → c ∈ cols.
Proof.
  unfold pd.missing_labels. split.
  - intros E c Hc. destruct (decide (c ∈ cols)) as [|Hn]; [done|].
    assert (c ∈ filter (λ n, n ∉ cols) names) as Hin by (by apply list_elem_of_filter).
    rewrite E in Hin. by apply elem_of_nil in Hin.
  - intros Hall. induction names as [|n names IH]; [done|].
    rewrite filter_cons, decide_False.
    + apply IH. intros c Hc. apply Hall. by right.
    + intros Hn. apply Hn, Hall. left.
Qed.

Lemma get_locs_None_missing names cols :
  pd.missing_labels names cols ≠ [] → pd.get_locs names cols = None.
Proof.
  intros Hne. destruct (pd.get_locs names cols) as [locs|] eqn:E; [|done].
  destruct Hne. apply missing_labels_nil. intros c Hc.
  assert (is_Some (pd.get_locs names cols)) as Hsome by (rewrite E; eauto).
  apply mapM_is_Some in Hsome. rewrite Forall_forall in Hsome.
  by apply get_loc_is_Some, (Hsome c).
Qed.

Lemma run_cases w :
  (∃ e lines, run w = (Raise e, {| files := files w; stdout := stdout w ++ lines |}))
  ∨ (∃ e png1 lines,
       run w = (Raise e, {| files := <["task1_priorities.png" := png1]> (files w);
                            stdout := stdout w ++ lines |}))
  ∨ (∃ png1 png2 T1 T2, run w = (Ok (), success_world to_csv w png1 png2 T1 T2)).
Proof.
  destruct (files w !! input_csv) as [text|] eqn:Hfile;
    [|left; eexists _, _; by apply run_missing].
  destruct (parse_csv text) as [parsed|e] eqn:Hparse.
  2:{ left. rewrite (run_parse_fails w text e Hfile Hparse).
      destruct e; try (eexists _, _; reflexivity);
        eexists _, []; destruct w; cbn; by rewrite app_nil_r. }
  destruct (task1_stage parse_number barplot (df_clean (pd.frame_of parsed)))
    as [[T1 png1]|e] eqn:H1;
    [|left; eexists _, _; by eapply run_stage1_fails].
  destruct (task2_stage barh_stacked (df_clean (pd.frame_of parsed)))
    as [[T2 png2]|e] eqn:H2;
    [|right; left; eexists _, _, _; by eapply run_stage2_fails].
  right; right. exists png1, png2, T1, T2. by eapply run_stages_succeed.
Qed.

(** X1: a run touches no file but its three outputs, the input file least of
    all, and only adds lines to what was printed. *)
Theorem run_touches_only_outputs (w : World) :
  (∀ k, k ≠ "task1_priorities.png" → k ≠ "task2_earnings.png" →
        k ≠ "results_summary.csv" → files (run w).2 !! k = files w !! k)
  ∧ files (run w).2 !! input_csv = files w !! input_csv
  ∧ stdout w `prefix_of` stdout (run w).2.
Proof.
  assert (∀ k, k ≠ "task1_priorities.png" → k ≠ "task2_earnings.png" →
               k ≠ "results_summary.csv" → files (run w).2 !! k = files w !! k) as Hk.
  { intros k H1 H2 H3.
    destruct (run_cases w) as [(e & l & ->)|[(e & p & l & ->)|(p1 & p2 & T1 & T2 & ->)]];
      cbn [snd files success_world]; by rewrite ?lookup_insert_ne. }
  split; [exact Hk|]. split; [by apply Hk|].
  destruct (run_cases w) as [(e & l & ->)|[(e & p & l & ->)|(p1 & p2 & T1 & T2 & ->)]];
    cbn [snd stdout success_world]; by eexists.
Qed.


(** X3: an exception of the reader other than [FileNotFoundError] is not
    caught: the run ends with it, having printed and written nothing;
    a [FileNotFoundError] out of the reader is handled like a missing
    file. *)
Theorem read_error_propagates (w : World) (text : string) (e : exn) :
  files w !! input_csv = Some text →
  parse_csv text = Raise e →
  run w =
    match e with
    | FileNotFoundError =>
        (Raise (SystemExit 1),
         {| files := files w; stdout := stdout w ++ ["Error: CSV file not found."] |})
    | _ => (Raise e, w)
    end.
Proof. apply run_parse_fails. Qed.

(** X4: whatever fails in Task 1 (a field that is absent, a chart that cannot
    be drawn), the run ends with that exception before any file is
    written; the warning is among the printed lines exactly when the
    employment field is absent. *)
Theorem task1_failure_writes_nothing (w : World) text parsed (e : exn) :
  files w !! input_csv = Some text →
  parse_csv text = Ok parsed →
  task1_stage parse_number barplot (df_clean (pd.frame_of parsed)) = Raise e →
  run w =
    (Raise e,
     {| files := files w;
        stdout := stdout w ++
          "Starting Task 1..." ::
          (if decide (col_employment ∈ pd.columns (pd.frame_of parsed))
           then [] else [warning]) |}).
Proof.
  intros Hfile Hparse Hstage. rewrite (run_stage1_fails w text parsed e) by done.
  unfold task1_start_lines.
  change (pd.columns (df_clean (pd.frame_of parsed))) with (pd.columns (pd.frame_of parsed)).
  by repeat case_decide.
Qed.

(** X6: whatever fails in Task 2, the run ends with that exception after the
    chart of Task 1 was saved: no second chart, no summary, and the last
    line printed is "Starting Task 2...". *)
Theorem task2_failure_keeps_first_chart (w : World) text parsed T1 png1 (e : exn) :
  files w !! input_csv = Some text →
  parse_csv text = Ok parsed →
  task1_stage parse_number barplot (df_clean (pd.frame_of parsed)) = Ok (T1, png1) →
  task2_stage barh_stacked (df_clean (pd.frame_of parsed)) = Raise e →
  run w =
    (Raise e,
     {| files := <["task1_priorities.png" := png1]> (files w);
        stdout := stdout w ++ [ "Starting Task 1...";
                                "Task 1 completed. Saved task1_priorities.png";
                                "Starting Task 2..." ] |}).
Proof. apply run_stage2_fails. Qed.

(** X5: when fields of Task 1 are absent the run ends, before anything is
    written, with a [KeyError] that names exactly the absent ones among
    the seven, in the order of the selection; the exit status is 1. *)
Theorem task1_absent_fields_KeyError (w : World) text parsed :
  files w !! input_csv = Some text →
  parse_csv text = Ok parsed →
  pd.missing_labels (col_employment :: keys col_rankings)
    (pd.columns (pd.frame_of parsed)) ≠ [] →
  run w =
    (Raise (KeyError (pd.missing_labels (col_employment :: keys col_rankings)
                        (pd.columns (pd.frame_of parsed)))),
     {| files := files w;
        stdout := stdout w ++
          "Starting Task 1..." ::
          (if decide (col_employment ∈ pd.columns (pd.frame_of parsed))
           then [] else [warning]) |})
  ∧ exit_status (run w).1 = 1%Z.
Proof.
  intros Hfile Hparse Hne%get_locs_None_missing.
  assert (run w =
    (Raise (KeyError (pd.missing_labels (col_employment :: keys col_rankings)
                        (pd.columns (pd.frame_of parsed)))),
     {| files := files w;
        stdout := stdout w ++ task1_start_lines (df_clean (pd.frame_of parsed)) |})) as ->.
  { apply (run_stage1_fails w text parsed); [done..|].
    unfold task1_stage.
    by rewrite (task1_df_KeyError parse_number (df_clean (pd.frame_of parsed)) Hne). }
  split; [|done]. unfold task1_start_lines.
  change (pd.columns (df_clean (pd.frame_of parsed))) with (pd.columns (pd.frame_of parsed)).
  by repeat case_decide.
Qed.

(** X7: when the program-type or the earnings field is absent, the run ends
    at the selection of Task 2 with a [KeyError] that names the absent
    ones of the two; the chart of Task 1 is saved by then, nothing
    else. *)
Theorem task2_absent_fields_KeyError (w : World) text parsed T1 png1 :
  files w !! input_csv = Some text →
  parse_csv text = Ok parsed →
  task1_stage parse_number barplot (df_clean (pd.frame_of parsed)) = Ok (T1, png1) →
  pd.missing_labels [col_program; col_earnings] (pd.columns (pd.frame_of parsed)) ≠ [] →
  run w =
    (Raise (KeyError (pd.missing_labels [col_program; col_earnings]
                        (pd.columns (pd.frame_of parsed)))),
     {| files := <["task1_priorities.png" := png1]> (files w);
        stdout := stdout w ++ [ "Starting Task 1...";
                                "Task 1 completed. Saved task1_priorities.png";
                                "Starting Task 2..." ] |}).
Proof.
  intros Hfile Hparse Hstage Hne%get_locs_None_missing.
  apply (run_stage2_fails w text parsed T1); [done..|].
  unfold task2_stage, task2_table, task2_df, pd.getitem_list.
  change (pd.columns (df_clean (pd.frame_of parsed))) with (pd.columns (pd.frame_of parsed)).
  by rewrite Hne.
Qed.

End run_outcomes.

(** ** The frame, the table and the long form of Task 1 *)

Lemma task1_df_inv parse_number dfc t1 :
  task1_df parse_number dfc = Ok t1 →
  ∃ locs,
    pd.get_locs (col_employment :: keys col_rankings) (pd.columns dfc) = Some locs
    ∧ length locs = 7%nat
    ∧ t1 = {| pd.columns := "Work in CPA Firm" :: ranking_cols;
              pd.rows := task1_row parse_number locs <$>
                           filter (task1_complete parse_number dfc) (pd.rows dfc) |}.
Proof.
  intros Ht1.
  destruct (pd.get_locs (col_employment :: keys col_rankings) (pd.columns dfc))
    as [locs|] eqn:Hlocs.
  2:{ by rewrite (task1_df_KeyError parse_number dfc Hlocs) in Ht1. }
  pose proof (length_mapM _ _ _ Hlocs) as Hlen.
  destruct locs as [|p0 [|p1 [|p2 [|p3 [|p4 [|p5 [|p6 [|]]]]]]]]; try done.
  exists [p0; p1; p2; p3; p4; p5; p6]. split; [done|]. split; [done|].
  rewrite (task1_df_rows parse_number dfc _ _ _ _ _ _ _ Hlocs) in Ht1.
  injection Ht1 as <-. do 2 f_equal.
  rewrite filter_fmap_comm. f_equal. apply list_filter_iff.
  intros r. by apply task1_complete_row.
Qed.

Lemma mjoin_fmap_lookup {A B C} (f : A → B → C) (xs : list A) (l : list B) k i x y :
  xs !! k = Some x → l !! i = Some y →
  mjoin ((λ x, f x <$> l) <$> xs) !! (k * length l + i)%nat = Some (f x y).
Proof.
  revert k. induction xs as [|x' xs IH]; intros k Hx Hy; [done|].
  cbn [fmap list_fmap mjoin list_join]. destruct k as [|k].
  - injection Hx as ->. cbn [Nat.mul Nat.add].
    rewrite lookup_app_l by (rewrite length_fmap; by eapply lookup_lt_Some).
    by rewrite list_lookup_fmap, Hy.
  - rewrite lookup_app_r by (rewrite length_fmap; cbn; lia).
    rewrite length_fmap.
    replace (S k * length l + i - length l)%nat with (k * length l + i)%nat by (cbn; lia).
    by apply IH.
Qed.

Lemma mjoin_fmap_length {A B C} (f : A → B → C) (xs : list A) (l : list B) :
  length (mjoin ((λ x, f x <$> l) <$> xs)) = (length xs * length l)%nat.
Proof.
  induction xs as [|x xs IH]; [done|].
  change (length ((f x <$> l) ++ mjoin ((λ x, f x <$> l) <$> xs))
          = (length l + length xs * length l)%nat).
  by rewrite length_app, length_fmap, IH.
Qed.

Lemma task1_melted_frame rs :
  task1_melted {| pd.columns := "Work in CPA Firm" :: ranking_cols; pd.rows := rs |} =
    let long :=
      mjoin ((λ vp : string * nat,
                (λ r : nat * list pd.cell,
                   [pd.cell_at 0 r.2; pd.Str vp.1; pd.cell_at vp.2 r.2]) <$> rs)
             <$> zip ranking_cols [1; 2; 3; 4; 5; 6]%nat) in
    Ok {| pd.columns := ["Work in CPA Firm"; "Benefit"; "Rank"];
          pd.rows := zip (seq 0 (length long)) long |}.
Proof.
  unfold task1_melted, pd.melt. cbn [pd.columns pd.rows].
  change (pd.get_loc _ _) with (Some 0%nat).
  change (pd.get_locs _ _) with (Some [1; 2; 3; 4; 5; 6]%nat).
  reflexivity.
Qed.

Lemma ranking_cols_loc k label :
  ranking_cols !! k = Some label →
  pd.get_loc label ("Work in CPA Firm" :: ranking_cols) = Some (S k)
  ∧ zip ranking_cols [1; 2; 3; 4; 5; 6]%nat !! k = Some (label, S k).
Proof.
  intros Hk.
  do 6 (destruct k as [|k]; [injection Hk as <-; split; reflexivity|]).
  done.
Qed.

(** X9: the long form of line 67.  On the frame of Task 1 the melt succeeds;
    the long frame has the three columns "Work in CPA Firm", "Benefit",
    "Rank", six rows per respondent and the index 0, 1, 2, ...; and
    with n respondents, the row at position k*n + i holds the employment
    value of respondent i, the k-th benefit label and the rank that
    respondent gave it. *)
Theorem task1_melted_long_form (parse_number : string → option Qc)
    (dfc t1 : pd.DataFrame) :
  task1_df parse_number dfc = Ok t1 →
  ∃ long,
    task1_melted t1 = Ok long
    ∧ pd.columns long = ["Work in CPA Firm"; "Benefit"; "Rank"]
    ∧ length (pd.rows long) = (6 * length (pd.rows t1))%nat
    ∧ pd.index long = seq 0 (6 * length (pd.rows t1))
    ∧ ∀ k label i r,
        ranking_cols !! k = Some label → pd.rows t1 !! i = Some r →
        pd.values long !! (k * length (pd.rows t1) + i)%nat =
          Some [field_of t1 "Work in CPA Firm" r; pd.Str label; field_of t1 label r].
Proof.
  intros (locs & _ & _ & ->)%task1_df_inv.
  set (rs := task1_row parse_number locs <$> _).
  rewrite task1_melted_frame. cbn zeta.
  set (long := mjoin _).
  assert (length long = (6 * length rs)%nat) as Hlen.
  { unfold long.
    etrans; [apply (mjoin_fmap_length
               (λ (vp : string * nat) (r : nat * list pd.cell),
                  [pd.cell_at 0 r.2; pd.Str vp.1; pd.cell_at vp.2 r.2]))|].
    reflexivity. }
  eexists. split; [reflexivity|]. cbn [pd.columns pd.rows].
  split; [done|].
  split; [by rewrite length_zip, length_seq, Hlen, Nat.min_id|].
  split.
  { unfold pd.index. cbn [pd.rows]. rewrite fst_zip by (rewrite length_seq; lia).
    by rewrite Hlen. }
  intros k label i r Hk Hi.
  destruct (ranking_cols_loc k label Hk) as [Hloc Hzip].
  unfold pd.values. cbn [pd.rows]. rewrite snd_zip by (rewrite length_seq; lia).
  unfold long.
  etrans; [apply (mjoin_fmap_lookup
             (λ (vp : string * nat) (r : nat * list pd.cell),
                [pd.cell_at 0 r.2; pd.Str vp.1; pd.cell_at vp.2 r.2])
             _ _ k i (label, S k) r Hzip Hi)|].
  unfold field_of. cbn [pd.columns fst snd]. rewrite Hloc.
  by change (pd.get_loc _ _) with (Some 0%nat).
Qed.

(** The frame of Task 1 is complete: all its rank cells are numbers. *)
Lemma task1_df_rank_cells parse_number dfc t1 r label :
  task1_df parse_number dfc = Ok t1 →
  r ∈ pd.rows t1 → label ∈ ranking_cols →
  length r.2 = 7%nat
  ∧ field_of t1 "Work in CPA Firm" r ≠ pd.NaN
  ∧ ∃ q, field_of t1 label r = pd.Num q.
Proof.
  intros (locs & Hlocs & Hlen & ->)%task1_df_inv. cbn [pd.rows].
  intros (r' & -> & [Hc _]%list_elem_of_filter)%list_elem_of_fmap Hlabel.
  destruct locs as [|p0 [|p1 [|p2 [|p3 [|p4 [|p5 [|p6 [|]]]]]]]]; try done.
  apply (task1_complete_row parse_number dfc p0 p1 p2 p3 p4 p5 p6 r' Hlocs) in Hc.
  cbn [task1_row snd fmap list_fmap] in Hc.
  rewrite !Forall_cons in Hc. destruct Hc as (H0 & H1 & H2 & H3 & H4 & H5 & H6 & _).
  split; [done|]. unfold field_of. cbn [pd.columns].
  split; [by change (pd.get_loc _ _) with (Some 0%nat)|].
  apply list_elem_of_lookup_1 in Hlabel as [k Hk].
  destruct (ranking_cols_loc k label Hk) as [-> _].
  do 6 (destruct k as [|k]; [by apply to_numeric_cell_notna|]).
  done.
Qed.

(** X8: the frame of Task 1 (lines 47-59): it has the seven renamed columns;
    its rows are the complete rows of the cleaned table, in their order
    and under their old index labels (the index is not renumbered); in
    every row the employment cell is present and every ranking cell is a
    number, never text and never missing. *)
Theorem task1_df_numeric_rows (parse_number : string → option Qc)
    (dfc t1 : pd.DataFrame) :
  task1_df parse_number dfc = Ok t1 →
  pd.columns t1 = "Work in CPA Firm" :: dict_values col_rankings
  ∧ pd.index t1 = (filter (task1_complete parse_number dfc) (pd.rows dfc)).*1
  ∧ pd.index t1 `sublist_of` pd.index dfc
  ∧ ∀ r, r ∈ pd.rows t1 →
      length r.2 = 7%nat
      ∧ field_of t1 "Work in CPA Firm" r ≠ pd.NaN
      ∧ ∀ label, label ∈ dict_values col_rankings → ∃ q, field_of t1 label r = pd.Num q.
Proof.
  intros Ht1. pose proof Ht1 as (locs & Hlocs & Hlen & E)%task1_df_inv.
  assert (pd.index t1 = (filter (task1_complete parse_number dfc) (pd.rows dfc)).*1)
    as Hindex.
  { rewrite E. unfold pd.index. cbn [pd.rows]. by rewrite <- list_fmap_compose. }
  split; [by rewrite E|]. split; [exact Hindex|].
  split; [rewrite Hindex; apply fmap_sublist, sublist_filter|].
  intros r Hr.
  assert ("CPA Exam Preparation" ∈ ranking_cols) as H1 by (apply (bool_decide_unpack _); exact I).
  destruct (task1_df_rank_cells parse_number dfc t1 r _ Ht1 Hr H1) as (Hlen' & Hemp & _).
  split; [exact Hlen'|]. split; [exact Hemp|].
  intros label Hlabel.
  by destruct (task1_df_rank_cells parse_number dfc t1 r label Ht1 Hr Hlabel) as (_ & _ & ?).
Qed.

(** ** Means lie between the ranks they average (line 62) *)


Lemma Qc_of_nat_pos n : (0 < n)%nat → 0 < Qc_of_nat n.
Proof.
  intros Hn. unfold Qc_of_nat, Qclt. cbn [this Q2Qc].
  rewrite !Qred_correct. unfold Qlt. simpl. lia.
Qed.

Lemma Qc_of_nat_le a b : (a ≤ b)%nat → Qc_of_nat a ≤ Qc_of_nat b.
Proof.
  intros Hab. unfold Qc_of_nat, Qcle. cbn [this Q2Qc].
  rewrite !Qred_correct. unfold Qle. simpl. lia.
Qed.






(** ** The column order is stable (lines 119-123) *)

(** X12: ordering the columns a second time changes nothing: the final order
    of a list of labels is its own final order. *)
Theorem final_order_idempotent (cols : list pd.cell) :
  final_order (final_order cols) = final_order cols.
Proof.
  unfold final_order at 1 3.
  rewrite !existing_order_labels, !others_out_of_scale, final_order_others.
  f_equal. apply filter_ext_elem. intros c _. split.
  - apply final_order_elem.
  - intros Hc. unfold final_order. rewrite elem_of_app.
    rewrite existing_order_labels, others_out_of_scale, !list_elem_of_filter.
    destruct (decide (c ∈ pd.Str <$> likert_order)); tauto.
Qed.

(** ** The percentage table as written and plotted (lines 93-123) *)

Lemma Qc_sum_perm (xs ys : list Qc) : xs ≡ₚ ys → Qc_sum xs = Qc_sum ys.
Proof.
  induction 1 as [|x xs ys _ IH|x y xs|xs ys zs _ IH1 _ IH2].
  - done.
  - change (x + Qc_sum xs = x + Qc_sum ys). by rewrite IH.
  - change (y + (x + Qc_sum xs) = x + (y + Qc_sum xs)). ring.
  - by rewrite IH1.
Qed.

Lemma numbers_perm (l l' : list pd.cell) : l ≡ₚ l' → pd.numbers l ≡ₚ pd.numbers l'.
Proof. intros Hl. unfold pd.numbers. by rewrite Hl. Qed.

Lemma take_locs_labels (g : pd.cell → pd.cell) cols labels locs :
  Forall2 (λ c p, pd.get_loc c cols = Some p) labels locs →
  pd.take_locs locs (g <$> cols) = g <$> labels.
Proof.
  induction 1 as [|c p labels locs Hc _ IH]; [done|].
  unfold pd.take_locs in *. cbn [fmap list_fmap]. rewrite IH. f_equal.
  unfold pd.cell_at. by rewrite list_lookup_fmap, (get_loc_Some _ _ _ Hc).
Qed.

Lemma count_le_total (p b : pd.cell) (obs : list (pd.cell * pd.cell)) :
  (pd.count (p, b) obs ≤ length (filter (λ o, o.1 = p) obs))%nat.
Proof.
  unfold pd.count. induction obs as [|o obs IH]; [done|].
  rewrite !filter_cons.
  destruct (decide (o = (p, b))) as [->|]; [rewrite decide_True by done; cbn; lia|].
  destruct (decide (o.1 = p)); cbn; lia.
Qed.

Lemma percent_bounds (a t : nat) :
  (a ≤ t)%nat → (0 < t)%nat →
  0 ≤ Qc_of_nat 100 * Qc_of_nat a / Qc_of_nat t
  ∧ Qc_of_nat 100 * Qc_of_nat a / Qc_of_nat t ≤ Qc_of_nat 100.
Proof.
  intros Hat Ht. pose proof (Qc_of_nat_pos t Ht) as Hpos.
  assert (Qc_of_nat t * (Qc_of_nat 100 * Qc_of_nat a / Qc_of_nat t)
          = Qc_of_nat 100 * Qc_of_nat a) as E.
  { field. by apply Qc_of_nat_ne_0. }
  split; apply (Qcmult_le_mono_pos_l _ _ (Qc_of_nat t) Hpos); rewrite E.
  - replace (Qc_of_nat t * 0) with (Q2Qc 0) by ring.
    apply Qcmult_nonneg_nonneg; apply (Qc_of_nat_le 0); lia.
  - rewrite (Qcmult_comm (Qc_of_nat t)).
    apply Qcmult_le_mono_nonneg_l; [apply (Qc_of_nat_le 0); lia|by apply Qc_of_nat_le].
Qed.

(** The percentage table of a cleaned table that has the two fields, in
    the shape the proofs below use: the observations are the pairs
    (program type, belief) of the retained rows. *)
Lemma task2_table_shape (dfc : pd.DataFrame) i j :
  pd.get_loc col_program (pd.columns dfc) = Some i →
  pd.get_loc col_earnings (pd.columns dfc) = Some j →
  let rs := (λ r : nat * list pd.cell, (r.1, [pd.cell_at i r.2; pd.cell_at j r.2])) <$>
              filter (task2_retained dfc) (pd.rows dfc) in
  let obs := (λ r : nat * list pd.cell, (pd.cell_at 0 r.2, pd.cell_at 1 r.2)) <$> rs in
  task2_df dfc = Ok {| pd.columns := ["Program Type"; "Lifetime Earnings Belief"];
                       pd.rows := rs |}
  ∧ task2_table dfc =
      Ok {| pd.tindex_name := "Program Type";
            pd.tindex := pd.sorted_unique obs.*1;
            pd.tcolumns := final_order (pd.sorted_unique obs.*2);
            pd.tvalues :=
              (λ p, (λ c, pd.Num (Qc_of_nat (pd.count (p, c) obs)
                                  / Qc_of_nat (length (filter (λ o, o.1 = p) obs))
                                  * Qc_of_nat 100))
                    <$> final_order (pd.sorted_unique obs.*2))
              <$> pd.sorted_unique obs.*1 |}.
Proof.
  intros Hi Hj rs obs. split; [by apply task2_df_rows|].
  unfold task2_table. rewrite (task2_df_rows dfc i j Hi Hj). fold rs.
  cbn [mbind result_bind]. rewrite task2_crosstab_frame. cbn [mbind result_bind].
  set (a := pd.mkSeries "Program Type" ((λ r, pd.cell_at 0 r.2) <$> rs)).
  set (b := pd.mkSeries "Lifetime Earnings Belief" ((λ r, pd.cell_at 1 r.2) <$> rs)).
  assert (pd.observations a b = obs) as Hobs.
  { apply (observations_complete (λ r : nat * list pd.cell, pd.cell_at 0 r.2)
             (λ r : nat * list pd.cell, pd.cell_at 1 r.2)).
    apply Forall_forall. intros r (r' & -> & Hr')%list_elem_of_fmap.
    apply list_elem_of_filter in Hr' as [(_ & Hp & He) _].
    unfold field_of in Hp, He. rewrite Hi in Hp. rewrite Hj in He. done. }
  destruct (task2_reordered_crosstab a b) as (locs & Hlocs & ->).
  rewrite crosstab_columns in Hlocs. rewrite crosstab_values. rewrite !Hobs in *.
  do 2 f_equal. rewrite <- list_fmap_compose.
  apply list_fmap_ext. intros _ p _. cbn [compose].
  by apply (take_locs_labels
              (λ c, pd.Num (Qc_of_nat (pd.count (p, c) obs)
                            / Qc_of_nat (length (filter (λ o, o.1 = p) obs))
                            * Qc_of_nat 100))).
Qed.

(** X11: the table that is plotted and written (lines 93-123), for a cleaned
    table that has the two fields: its columns are the distinct beliefs
    of the retained respondents, each once; the cell of program type p
    under belief b is 100 * (respondents of p giving b) / (respondents
    of p), a number between 0 and 100; and every row still adds up to 100
    after the columns have been put in their final order. *)
Theorem task2_table_cells (dfc : pd.DataFrame) :
  col_program ∈ pd.columns dfc → col_earnings ∈ pd.columns dfc →
  ∃ t2 T,
    task2_df dfc = Ok t2 ∧ task2_table dfc = Ok T
    ∧ NoDup (pd.tcolumns T)
    ∧ (∀ b, b ∈ pd.tcolumns T ↔
            ∃ r, r ∈ pd.rows t2 ∧ field_of t2 "Lifetime Earnings Belief" r = b)
    ∧ length (pd.tvalues T) = length (pd.tindex T)
    ∧ ∀ i p, pd.tindex T !! i = Some p →
        ∃ row,
          pd.tvalues T !! i = Some row
          ∧ length row = length (pd.tcolumns T)
          ∧ (∀ j b, pd.tcolumns T !! j = Some b →
               ∃ q, row !! j = Some (pd.Num q)
                    ∧ q = Qc_of_nat 100 * Qc_of_nat (respondents_giving p b t2)
                          / Qc_of_nat (respondents_of p t2)
                    ∧ 0 ≤ q ∧ q ≤ Qc_of_nat 100)
          ∧ Qc_sum (pd.numbers row) = Qc_of_nat 100.
Proof.
  intros [i Hi]%get_loc_is_Some [j Hj]%get_loc_is_Some.
  destruct (task2_table_shape dfc i j Hi Hj) as [Ht2 HT].
  set (rs := (λ r : nat * list pd.cell, (r.1, [pd.cell_at i r.2; pd.cell_at j r.2])) <$>
             filter (task2_retained dfc) (pd.rows dfc)) in *.
  set (obs := (λ r : nat * list pd.cell, (pd.cell_at 0 r.2, pd.cell_at 1 r.2)) <$> rs) in *.
  eexists _, _. split; [exact Ht2|]. split; [exact HT|].
  cbn [pd.tcolumns pd.tindex pd.tvalues pd.rows].
  pose proof (final_order_rearranges _ (NoDup_sorted_unique obs.*2)) as Hperm.
  split; [rewrite Hperm; apply NoDup_sorted_unique|].
  split.
  { intros b. rewrite Hperm, elem_of_sorted_unique. unfold obs.
    rewrite <- list_fmap_compose, list_elem_of_fmap.
    unfold field_of. cbn [pd.columns]. compute_labels.
    split; intros (r & ? & ?); exists r; cbn [compose snd] in *; done. }
  split; [by rewrite length_fmap|]. intros n p Hp.
  assert (respondents_of p {| pd.columns := ["Program Type"; "Lifetime Earnings Belief"];
                              pd.rows := rs |}
          = length (filter (λ o, o.1 = p) obs)) as Htot.
  { unfold respondents_of, field_of, obs. cbn [pd.columns pd.rows]. compute_labels.
    by rewrite filter_fmap_comm, length_fmap. }
  assert (0 < length (filter (λ o, o.1 = p) obs))%nat as Hpos.
  { apply crosstab_row_total. eapply list_elem_of_lookup_2, Hp. }
  eexists. split; [by rewrite list_lookup_fmap, Hp|].
  split; [by rewrite length_fmap|]. split.
  - intros m b Hb. rewrite list_lookup_fmap, Hb. cbn [fmap option_fmap option_map].
    eexists. split; [reflexivity|].
    assert (respondents_giving p b {| pd.columns := ["Program Type"; "Lifetime Earnings Belief"];
                                      pd.rows := rs |}
            = pd.count (p, b) obs) as Hgiv.
    { unfold respondents_giving, field_of, obs. cbn [pd.columns pd.rows]. compute_labels.
      by rewrite count_fmap. }
    rewrite Htot, Hgiv.
    assert (Qc_of_nat (pd.count (p, b) obs) / Qc_of_nat (length (filter (λ o, o.1 = p) obs))
            * Qc_of_nat 100
            = Qc_of_nat 100 * Qc_of_nat (pd.count (p, b) obs)
              / Qc_of_nat (length (filter (λ o, o.1 = p) obs))) as ->.
    { field. by apply Qc_of_nat_ne_0. }
    split; [done|]. apply percent_bounds; [apply count_le_total|done].
  - etrans; [|apply (percent_row_sum obs p (Qc_of_nat 100) Hpos)].
    apply Qc_sum_perm, numbers_perm, fmap_Permutation, Hperm.
Qed.

(** ** The tables do not depend on the order of the respondents *)

Lemma ascii_compare_refl a : Ascii.compare a a = Eq.
Proof. unfold Ascii.compare. apply N.compare_refl. Qed.

Lemma ascii_compare_Lt_trans a b c :
  Ascii.compare a b = Lt → Ascii.compare b c = Lt → Ascii.compare a c = Lt.
Proof. unfold Ascii.compare. rewrite !N.compare_lt_iff. apply N.lt_trans. Qed.

Lemma string_leb_trans (s t u : string) :
  String.leb s t = true → String.leb t u = true → String.leb s u = true.
Proof.
  unfold String.leb. revert t u.
  induction s as [|a s IH]; intros [|b t] [|c u]; cbn; try done.
  destruct (Ascii.compare a b) eqn:Hab; [| |done];
    (destruct (Ascii.compare b c) eqn:Hbc; [| |by destruct (String.compare s t)]).
  - apply Ascii.compare_eq_iff in Hab as ->. apply Ascii.compare_eq_iff in Hbc as ->.
    rewrite ascii_compare_refl. apply IH.
  - apply Ascii.compare_eq_iff in Hab as ->. by rewrite Hbc.
  - apply Ascii.compare_eq_iff in Hbc as <-. by rewrite Hab.
  - by rewrite (ascii_compare_Lt_trans a b c).
Qed.

Lemma cell_le_total : Total pd.cell_le.
Proof.
  intros [|s|x] [|t|y]; unfold pd.cell_le; cbn; try tauto.
  - apply String.leb_total.
  - rewrite !Qle_bool_iff. destruct (Qlt_le_dec x y) as [?%Qlt_le_weak|?]; tauto.
Qed.

Lemma cell_le_trans : Transitive pd.cell_le.
Proof.
  intros [|s|x] [|t|y] [|u|z]; unfold pd.cell_le; cbn; try done.
  - apply string_leb_trans.
  - rewrite !Qle_bool_iff. apply Qle_trans.
Qed.

Lemma cell_le_antisym : AntiSymm (=) pd.cell_le.
Proof.
  intros [|s|x] [|t|y]; unfold pd.cell_le; cbn; try done.
  - intros H1 H2. f_equal. by apply String.leb_antisym.
  - rewrite !Qle_bool_iff. intros H1 H2. f_equal. by apply Qcle_antisym.
Qed.

(** The labels of a grouped axis depend on which values occur only. *)
Lemma sorted_unique_ext (l l' : list pd.cell) :
  (∀ x, x ∈ l ↔ x ∈ l') → pd.sorted_unique l = pd.sorted_unique l'.
Proof.
  intros Hl. unfold pd.sorted_unique.
  apply (@Sorted_unique _ pd.cell_le cell_le_trans cell_le_antisym);
    [apply (@Sorted_merge_sort _ pd.cell_le _ cell_le_total)..|].
  rewrite !merge_sort_Permutation.
  apply NoDup_Permutation; [apply NoDup_remove_dups..|].
  intros x. by rewrite !elem_of_remove_dups.
Qed.

Lemma sorted_unique_Permutation (l l' : list pd.cell) :
  l ≡ₚ l' → pd.sorted_unique l = pd.sorted_unique l'.
Proof. intros Hl. apply sorted_unique_ext. intros x. by rewrite Hl. Qed.

Lemma mean_Permutation (l l' : list pd.cell) : l ≡ₚ l' → pd.mean l = pd.mean l'.
Proof.
  intros Hl%numbers_perm. unfold pd.mean.
  destruct (pd.numbers l) as [|x xs] eqn:E, (pd.numbers l') as [|y ys] eqn:E'.
  - done.
  - by apply Permutation_nil_cons in Hl.
  - symmetry in Hl. by apply Permutation_nil_cons in Hl.
  - by rewrite (Qc_sum_perm _ _ Hl), (Permutation_length Hl).
Qed.

Lemma filter_values {A B} (P : B → Prop) `{∀ v, Decision (P v)} (l : list (A * B)) :
  (filter (λ r, P r.2) l).*2 = filter P l.*2.
Proof. by rewrite filter_fmap_comm. Qed.

(** The table of means read off the cells of the rows, whatever their
    index labels. *)
Lemma task1_means_of_values rs :
  task1_means {| pd.columns := "Work in CPA Firm" :: ranking_cols; pd.rows := rs |} =
    Ok {| pd.tindex_name := "Work in CPA Firm";
          pd.tindex := pd.sorted_unique (filter pd.notna (pd.cell_at 0 <$> rs.*2));
          pd.tcolumns := pd.Str <$> ranking_cols;
          pd.tvalues :=
            (λ g, (λ p, pd.mean (pd.cell_at p <$> filter (λ v, pd.cell_at 0 v = g) rs.*2))
                  <$> [1; 2; 3; 4; 5; 6]%nat)
            <$> pd.sorted_unique (filter pd.notna (pd.cell_at 0 <$> rs.*2)) |}.
Proof.
  rewrite task1_means_frame. rewrite <- !list_fmap_compose. do 2 f_equal.
  apply list_fmap_ext. intros _ g _. apply list_fmap_ext. intros _ p _. f_equal.
  by rewrite <- (filter_values (λ v, pd.cell_at 0 v = g)), <- list_fmap_compose.
Qed.

Lemma task1_means_Permutation rs rs' :
  rs.*2 ≡ₚ rs'.*2 →
  task1_means {| pd.columns := "Work in CPA Firm" :: ranking_cols; pd.rows := rs |}
  = task1_means {| pd.columns := "Work in CPA Firm" :: ranking_cols; pd.rows := rs' |}.
Proof.
  intros Hrs. rewrite !task1_means_of_values.
  assert (pd.sorted_unique (filter pd.notna (pd.cell_at 0 <$> rs.*2))
          = pd.sorted_unique (filter pd.notna (pd.cell_at 0 <$> rs'.*2))) as ->.
  { apply sorted_unique_Permutation. by rewrite Hrs. }
  do 2 f_equal. apply list_fmap_ext. intros _ g _. apply list_fmap_ext. intros _ p _.
  apply mean_Permutation. by rewrite Hrs.
Qed.

Lemma task1_rows_values parse_number cs rows locs :
  (task1_row parse_number locs <$>
     filter (task1_complete parse_number {| pd.columns := cs; pd.rows := rows |}) rows).*2
  = (λ v, (task1_row parse_number locs (0%nat, v)).2) <$>
      filter (λ v, task1_complete parse_number {| pd.columns := cs; pd.rows := [] |} (0%nat, v))
        rows.*2.
Proof.
  rewrite <- list_fmap_compose.
  rewrite <- (filter_values
                (λ v, task1_complete parse_number {| pd.columns := cs; pd.rows := [] |}
                        (0%nat, v))).
  by rewrite <- list_fmap_compose.
Qed.

Lemma task2_obs_values cs rows i j :
  (λ r : nat * list pd.cell, (pd.cell_at 0 r.2, pd.cell_at 1 r.2)) <$>
    ((λ r : nat * list pd.cell, (r.1, [pd.cell_at i r.2; pd.cell_at j r.2])) <$>
       filter (task2_retained {| pd.columns := cs; pd.rows := rows |}) rows)
  = (λ v, (pd.cell_at i v, pd.cell_at j v)) <$>
      filter (λ v, task2_retained {| pd.columns := cs; pd.rows := [] |} (0%nat, v)) rows.*2.
Proof.
  rewrite <- list_fmap_compose.
  rewrite <- (filter_values
                (λ v, task2_retained {| pd.columns := cs; pd.rows := [] |} (0%nat, v))).
  by rewrite <- list_fmap_compose.
Qed.

Lemma count_Permutation x (obs obs' : list (pd.cell * pd.cell)) :
  obs ≡ₚ obs' → pd.count x obs = pd.count x obs'.
Proof. intros Hobs. unfold pd.count. by rewrite Hobs. Qed.

(** X13: both summary tables are functions of the column names and of the
    collection of rows: two cleaned tables with the same columns whose
    rows are rearrangements of each other, under whatever index labels,
    give the same table of means and the same percentage table, or fail
    alike. *)
Theorem tables_ignore_row_order (parse_number : string → option Qc)
    (dfc dfc' : pd.DataFrame) :
  pd.columns dfc = pd.columns dfc' →
  pd.values dfc ≡ₚ pd.values dfc' →
  (t1 ← task1_df parse_number dfc; task1_means t1)
    = (t1 ← task1_df parse_number dfc'; task1_means t1)
  ∧ task2_table dfc = task2_table dfc'.
Proof.
  destruct dfc as [cs rows], dfc' as [cs' rows']. unfold pd.values. cbn [pd.columns pd.rows].
  intros <- Hrows. split.
  - destruct (pd.get_locs (col_employment :: keys col_rankings) cs) as [locs|] eqn:Hlocs.
    + pose proof (length_mapM _ _ _ Hlocs) as Hlen.
      destruct locs as [|p0 [|p1 [|p2 [|p3 [|p4 [|p5 [|p6 [|]]]]]]]]; try done.
      rewrite !(task1_df_rows parse_number _ p0 p1 p2 p3 p4 p5 p6) by done.
      cbn [mbind result_bind pd.rows].
      apply task1_means_Permutation.
      rewrite !filter_fmap_comm.
      rewrite (list_filter_iff _
                 (task1_complete parse_number {| pd.columns := cs; pd.rows := rows |}) rows)
        by (intros r; by apply task1_complete_row).
      rewrite (list_filter_iff _
                 (task1_complete parse_number {| pd.columns := cs; pd.rows := rows' |}) rows')
        by (intros r; by apply task1_complete_row).
      rewrite !task1_rows_values. by rewrite Hrows.
    + unfold task1_df, pd.getitem_list. cbn [pd.columns]. by rewrite Hlocs.
  - destruct (pd.get_loc col_program cs) as [i|] eqn:Hi;
      [destruct (pd.get_loc col_earnings cs) as [j|] eqn:Hj|].
    + destruct (task2_table_shape {| pd.columns := cs; pd.rows := rows |} i j Hi Hj)
        as [_ ->].
      destruct (task2_table_shape {| pd.columns := cs; pd.rows := rows' |} i j Hi Hj)
        as [_ ->].
      cbn [pd.rows]. rewrite !task2_obs_values.
      set (obs := _ <$> filter _ rows.*2). set (obs' := _ <$> filter _ rows'.*2).
      assert (obs ≡ₚ obs') as Hobs by (unfold obs, obs'; by rewrite Hrows).
      assert (pd.sorted_unique obs.*1 = pd.sorted_unique obs'.*1) as ->
        by (apply sorted_unique_Permutation; by rewrite Hobs).
      assert (pd.sorted_unique obs.*2 = pd.sorted_unique obs'.*2) as ->
        by (apply sorted_unique_Permutation; by rewrite Hobs).
      do 2 f_equal. apply list_fmap_ext. intros _ p _. apply list_fmap_ext. intros _ c _.
      by rewrite (count_Permutation _ _ _ Hobs), Hobs.
    + unfold task2_table, task2_df, pd.getitem_list. cbn [pd.columns].
      by rewrite !get_locs_cons, Hi, Hj.
    + unfold task2_table, task2_df, pd.getitem_list. cbn [pd.columns].
      by rewrite !get_locs_cons, Hi.
Qed.

(** ** Example runs for the properties above *)

Lemma read_error_propagates_witness :
  files (world_with "") !! input_csv = Some ""
  ∧ sample.parse_csv "" = Raise (LibraryError "EmptyDataError")
  ∧ sample.main (world_with "")
    = (Raise (LibraryError "EmptyDataError"), world_with "").
Proof.
  assert (files (world_with "") !! input_csv = Some "") as H1 by (vm_compute; reflexivity).
  assert (sample.parse_csv "" = Raise (LibraryError "EmptyDataError")) as H2
    by (vm_compute; reflexivity).
  split; [exact H1|]. split; [exact H2|].
  exact (read_error_propagates sample.parse_csv sample.parse_number sample.barplot
           sample.barh_stacked sample.to_csv (world_with "") "" _ H1 H2).
Defined.

Lemma task1_failure_writes_nothing_witness :
  ∃ parsed,
    files (world_with sample_csv) !! input_csv = Some sample_csv
    ∧ sample.parse_csv sample_csv = Ok parsed
    ∧ task1_stage sample.parse_number failing_barplot (df_clean (pd.frame_of parsed))
      = Raise (LibraryError "ValueError")
    ∧ main sample.parse_csv sample.parse_number failing_barplot sample.barh_stacked
        sample.to_csv (world_with sample_csv)
      = (Raise (LibraryError "ValueError"),
         {| files := files (world_with sample_csv); stdout := ["Starting Task 1..."] |}).
Proof.
  assert (files (world_with sample_csv) !! input_csv = Some sample_csv) as H1
    by (vm_compute; reflexivity).
  destruct (sample.parse_csv sample_csv) as [parsed|] eqn:H2;
    [|vm_compute in H2; discriminate H2].
  assert (task1_stage sample.parse_number failing_barplot (df_clean (pd.frame_of parsed))
          = Raise (LibraryError "ValueError")) as H3.
  { vm_compute in H2. injection H2 as <-. vm_compute. reflexivity. }
  exists parsed. split; [exact H1|]. split; [reflexivity|]. split; [exact H3|].
  etransitivity;
    [exact (task1_failure_writes_nothing sample.parse_csv sample.parse_number
              failing_barplot sample.barh_stacked sample.to_csv
              (world_with sample_csv) sample_csv parsed _ H1 H2 H3)|].
  vm_compute in H2. injection H2 as <-. vm_compute. reflexivity.
Defined.

Lemma task2_failure_keeps_first_chart_witness :
  ∃ parsed T1 png1,
    files (world_with sample_csv) !! input_csv = Some sample_csv
    ∧ sample.parse_csv sample_csv = Ok parsed
    ∧ task1_stage sample.parse_number sample.barplot (df_clean (pd.frame_of parsed))
      = Ok (T1, png1)
    ∧ task2_stage failing_barh_stacked (df_clean (pd.frame_of parsed))
      = Raise (LibraryError "TypeError: no numeric data to plot")
    ∧ main sample.parse_csv sample.parse_number sample.barplot failing_barh_stacked
        sample.to_csv (world_with sample_csv)
      = (Raise (LibraryError "TypeError: no numeric data to plot"),
         {| files := <["task1_priorities.png" := png1]> (files (world_with sample_csv));
            stdout := [ "Starting Task 1...";
                        "Task 1 completed. Saved task1_priorities.png";
                        "Starting Task 2..." ] |}).
Proof.
  assert (files (world_with sample_csv) !! input_csv = Some sample_csv) as H1
    by (vm_compute; reflexivity).
  destruct (sample.parse_csv sample_csv) as [parsed|] eqn:H2;
    [|vm_compute in H2; discriminate H2].
  destruct (task1_stage sample.parse_number sample.barplot (df_clean (pd.frame_of parsed)))
    as [[T1 png1]|] eqn:H3;
    [|vm_compute in H2; injection H2 as <-; vm_compute in H3; discriminate H3].
  assert (task2_stage failing_barh_stacked (df_clean (pd.frame_of parsed))
          = Raise (LibraryError "TypeError: no numeric data to plot")) as H4.
  { vm_compute in H2. injection H2 as <-. vm_compute. reflexivity. }
  exists parsed, T1, png1.
  split; [exact H1|]. split; [reflexivity|]. split; [exact H3|]. split; [exact H4|].
  exact (task2_failure_keeps_first_chart sample.parse_csv sample.parse_number
           sample.barplot failing_barh_stacked sample.to_csv
           (world_with sample_csv) sample_csv parsed T1 png1 _ H1 H2 H3 H4).
Defined.

Lemma task1_absent_fields_KeyError_witness :
  ∃ parsed,
    files (world_with csv_without_ranking) !! input_csv = Some csv_without_ranking
    ∧ sample.parse_csv csv_without_ranking = Ok parsed
    ∧ pd.missing_labels (col_employment :: keys col_rankings)
        (pd.columns (pd.frame_of parsed)) = ["Q24_3"]
    ∧ (sample.main (world_with csv_without_ranking)).1 = Raise (KeyError ["Q24_3"])
    ∧ exit_status (sample.main (world_with csv_without_ranking)).1 = 1%Z.
Proof.
  assert (files (world_with csv_without_ranking) !! input_csv = Some csv_without_ranking)
    as H1 by (vm_compute; reflexivity).
  destruct (sample.parse_csv csv_without_ranking) as [parsed|] eqn:H2;
    [|vm_compute in H2; discriminate H2].
  assert (pd.missing_labels (col_employment :: keys col_rankings)
            (pd.columns (pd.frame_of parsed)) = ["Q24_3"]) as H3.
  { vm_compute in H2. injection H2 as <-. vm_compute. reflexivity. }
  assert (pd.missing_labels (col_employment :: keys col_rankings)
            (pd.columns (pd.frame_of parsed)) ≠ []) as H3'.
  { rewrite H3. discriminate. }
  destruct (task1_absent_fields_KeyError sample.parse_csv sample.parse_number
              sample.barplot sample.barh_stacked sample.to_csv
              (world_with csv_without_ranking) csv_without_ranking parsed H1 H2 H3')
    as [Hrun Hstatus].
  exists parsed. split; [exact H1|]. split; [reflexivity|]. split; [exact H3|].
  split; [|exact Hstatus].
  unfold sample.main. rewrite Hrun. cbn [fst]. rewrite H3. reflexivity.
Defined.

Lemma task2_absent_fields_KeyError_witness :
  ∃ parsed T1 png1,
    files (world_with csv_without_program) !! input_csv = Some csv_without_program
    ∧ sample.parse_csv csv_without_program = Ok parsed
    ∧ task1_stage sample.parse_number sample.barplot (df_clean (pd.frame_of parsed))
      = Ok (T1, png1)
    ∧ pd.missing_labels [col_program; col_earnings] (pd.columns (pd.frame_of parsed))
      = ["Q58"]
    ∧ sample.main (world_with csv_without_program)
      = (Raise (KeyError ["Q58"]),
         {| files := <["task1_priorities.png" := png1]>
                       (files (world_with csv_without_program));
            stdout := [ "Starting Task 1...";
                        "Task 1 completed. Saved task1_priorities.png";
                        "Starting Task 2..." ] |}).
Proof.
  assert (files (world_with csv_without_program) !! input_csv = Some csv_without_program)
    as H1 by (vm_compute; reflexivity).
  destruct (sample.parse_csv csv_without_program) as [parsed|] eqn:H2;
    [|vm_compute in H2; discriminate H2].
  destruct (task1_stage sample.parse_number sample.barplot (df_clean (pd.frame_of parsed)))
    as [[T1 png1]|] eqn:H3;
    [|vm_compute in H2; injection H2 as <-; vm_compute in H3; discriminate H3].
  assert (pd.missing_labels [col_program; col_earnings] (pd.columns (pd.frame_of parsed))
          = ["Q58"]) as H4.
  { vm_compute in H2. injection H2 as <-. vm_compute. reflexivity. }
  assert (pd.missing_labels [col_program; col_earnings] (pd.columns (pd.frame_of parsed))
          ≠ []) as H4'.
  { rewrite H4. discriminate. }
  pose proof (task2_absent_fields_KeyError sample.parse_csv sample.parse_number
                sample.barplot sample.barh_stacked sample.to_csv
                (world_with csv_without_program) csv_without_program parsed T1 png1
                H1 H2 H3 H4') as Hrun.
  exists parsed, T1, png1.
  split; [exact H1|]. split; [reflexivity|]. split; [exact H3|]. split; [exact H4|].
  unfold sample.main. rewrite Hrun, H4. reflexivity.
Defined.

Lemma task1_melted_long_form_witness :
  ∃ t1 long,
    task1_df sample.parse_number sample_clean = Ok t1
    ∧ task1_melted t1 = Ok long
    ∧ pd.columns long = ["Work in CPA Firm"; "Benefit"; "Rank"]
    ∧ length (pd.rows long) = (6 * length (pd.rows t1))%nat.
Proof.
  destruct (task1_df sample.parse_number sample_clean) as [t1|] eqn:Ht1;
    [|vm_compute in Ht1; discriminate Ht1].
  destruct (task1_melted_long_form sample.parse_number sample_clean t1 Ht1)
    as (long & Hlong & Hcols & Hlen & _).
  exists t1, long. split; [reflexivity|]. split; [exact Hlong|].
  split; [exact Hcols|exact Hlen].
Defined.

Lemma task1_df_numeric_rows_witness :
  ∃ t1,
    task1_df sample.parse_number sample_clean = Ok t1
    ∧ pd.columns t1 = "Work in CPA Firm" :: dict_values col_rankings
    ∧ pd.index t1 `sublist_of` pd.index sample_clean.
Proof.
  destruct (task1_df sample.parse_number sample_clean) as [t1|] eqn:Ht1;
    [|vm_compute in Ht1; discriminate Ht1].
  destruct (task1_df_numeric_rows sample.parse_number sample_clean t1 Ht1)
    as (Hcols & _ & Hsub & _).
  exists t1. split; [reflexivity|]. split; [exact Hcols|exact Hsub].
Defined.

Lemma task2_table_cells_witness :
  col_program ∈ pd.columns sample_clean ∧ col_earnings ∈ pd.columns sample_clean
  ∧ ∃ t2 T, task2_df sample_clean = Ok t2 ∧ task2_table sample_clean = Ok T
            ∧ NoDup (pd.tcolumns T)
            ∧ length (pd.tvalues T) = length (pd.tindex T).
Proof.
  assert (col_program ∈ pd.columns sample_clean) as H1
    by (apply (bool_decide_unpack _); vm_compute; exact I).
  assert (col_earnings ∈ pd.columns sample_clean) as H2
    by (apply (bool_decide_unpack _); vm_compute; exact I).
  split; [exact H1|]. split; [exact H2|].
  destruct (task2_table_cells sample_clean H1 H2) as (t2 & T & Ht2 & HT & Hnd & _ & Hlen & _).
  exists t2, T. split; [exact Ht2|]. split; [exact HT|]. split; [exact Hnd|exact Hlen].
Defined.

Lemma tables_ignore_row_order_witness :
  let reversed := {| pd.columns := pd.columns sample_clean;
                     pd.rows := reverse (pd.rows sample_clean) |} in
  pd.columns sample_clean = pd.columns reversed
  ∧ pd.values sample_clean ≡ₚ pd.values reversed
  ∧ (t1 ← task1_df sample.parse_number sample_clean; task1_means t1)
    = (t1 ← task1_df sample.parse_number reversed; task1_means t1)
  ∧ task2_table sample_clean = task2_table reversed.
Proof.
  intros reversed.
  assert (pd.columns sample_clean = pd.columns reversed) as H1 by reflexivity.
  assert (pd.values sample_clean ≡ₚ pd.values reversed) as H2.
  { unfold pd.values, reversed. cbn [pd.rows]. rewrite fmap_reverse.
    symmetry. apply reverse_Permutation. }
  split; [exact H1|]. split; [exact H2|].
  exact (tables_ignore_row_order sample.parse_number sample_clean reversed H1 H2).
Defined.


